(** * shudder.queue: an SQS queue subscribed to an SNS topic, polled for the
      termination notice of this EC2 instance.

    A shallow embedding of [src/shudder/queue.py].  Python values are an
    inductive type, exceptions are a result type, and the calls the module
    makes on its collaborators (logging, boto3) are recorded, in order, in a
    trace that is kept when an exception is raised. *)

From Stdlib Require Import ZArith Ascii String.
From stdpp Require Import gmap strings list.

Open Scope string_scope.
Set Warnings "-register-all".

(** ** Python values *)

(** The values that reach the module: what [json.loads] builds, what the
    configuration holds, what boto3 answers. *)
Inductive pyval : Type :=
| PNone
| PBool (b : bool)
| PInt (z : Z)
| PFloat (lexeme : string)
| PStr (s : string)
| PList (l : list pyval)
| PDict (d : gmap string pyval).

Inductive exn : Type :=
| TypeError
| KeyError (key : string)
| AttributeError
| ValueError                      (* json.JSONDecodeError is a ValueError *)
| BotoError (name : string).      (* what a boto3 call raises when it fails *)

Inductive result (A : Type) : Type :=
| Ret (a : A)
| Raise (e : exn).
Arguments Ret {A} a.
Arguments Raise {A} e.

Module Py.

(** [s + x] with a [str] on the left: defined only when [x] is a [str]
    too; no other value has an [__radd__] that accepts a [str]. *)
Class Operand (A : Type) := as_str : A -> option string.
#[global] Instance operand_string : Operand string := Some.
#[global] Instance operand_pyval : Operand pyval :=
  fun v => match v with PStr s => Some s | _ => None end.

Definition str_add {A} `{Operand A} (s : string) (x : A) : result string :=
  match as_str x with
  | Some t => Ret (s ++ t)
  | None => Raise TypeError
  end.

(** [x + y] where [y] is the result of [dict.get] on a map of strings:
    a [str] or [None]. *)
Definition add_opt_str (x : pyval) (y : option string) : result string :=
  match x, y with
  | PStr s, Some t => Ret (s ++ t)
  | _, _ => Raise TypeError
  end.

(** [v == s] for a [str] [s]. *)
Definition eq_str (v : pyval) (s : string) : bool :=
  match v with
  | PStr t => String.eqb t s
  | _ => false
  end.

Fixpoint substring_of (needle hay : string) : bool :=
  String.prefix needle hay ||
  match hay with
  | EmptyString => false
  | String _ hay' => substring_of needle hay'
  end.

(** [k in v] for a [str] [k]. *)
Definition contains (v : pyval) (k : string) : result bool :=
  match v with
  | PDict d => Ret (bool_decide (is_Some (d !! k)))
  | PList l => Ret (existsb (fun x => eq_str x k) l)
  | PStr s => Ret (substring_of k s)
  | _ => Raise TypeError
  end.

(** [v[k]] for a [str] [k]. *)
Definition getitem (v : pyval) (k : string) : result pyval :=
  match v with
  | PDict d =>
      match d !! k with
      | Some x => Ret x
      | None => Raise (KeyError k)
      end
  | _ => Raise TypeError
  end.

(** [v[k] = x] for a [str] [k]. *)
Definition setitem (v : pyval) (k : string) (x : pyval) : result pyval :=
  match v with
  | PDict d => Ret (PDict (<[k := x]> d))
  | _ => Raise TypeError
  end.

(** [d[k]] on a module-level dict. *)
Definition lookup_key (d : gmap string pyval) (k : string) : result pyval :=
  getitem (PDict d) k.

(** The elements [for x in v] visits; for a [dict] these are its keys, here
    in the order of [map_to_list]. *)
Definition iterate (v : pyval) : result (list pyval) :=
  match v with
  | PList l => Ret l
  | PDict d => Ret (map (fun kv => PStr (fst kv)) (map_to_list d))
  | PStr s => Ret (map (fun c => PStr (String c EmptyString)) (list_ascii_of_string s))
  | _ => Raise TypeError
  end.

(** [v.append(x)]: only lists have the method. *)
Definition append (v : pyval) (x : pyval) : result pyval :=
  match v with
  | PList l => Ret (PList (l ++ [x])%list)
  | PNone | PBool _ | PInt _ | PFloat _ | PStr _ | PDict _ => Raise AttributeError
  end.

(** The truth value of the result of [dict.get] on a map of strings. *)
Definition truthy (o : option string) : bool :=
  match o with
  | Some s => negb (String.eqb s EmptyString)
  | None => false
  end.

Definition of_opt_str (o : option string) : pyval :=
  match o with
  | Some s => PStr s
  | None => PNone
  end.

End Py.

(** ** The collaborators *)

(** An [sqs.Message] resource. *)
Record Message : Type := { receipt_handle : string; body : string }.

(** An [sqs.Queue] resource.  Its attributes are loaded from the service
    when they are first read and kept in the resource from then on; [data]
    is what the resource holds. *)
Record Queue : Type := { url : pyval; data : option (gmap string string) }.

(** A [boto3.client]. *)
Record Client : Type := { service : string; region_name : pyval }.

#[global] Instance operand_Message : Py.Operand Message := fun _ => None.
#[global] Instance operand_Queue : Py.Operand Queue := fun _ => None.

(** What the module asks of its collaborators, in the order it asks. *)
Inductive event : Type :=
| Log (line : string)
| NewClient (service : string) (region : pyval)
| NewResource (service : string) (region : pyval)
| CreateQueue (QueueName : string) (Attributes : list (string * string))
| TagQueue (QueueUrl Tags : pyval)
| GetQueueAttributes (queue : Queue)
| SetQueueAttributes (queue : Queue) (Attributes : list (string * string))
| ReceiveMessages (queue : Queue)
| DeleteMessage (message : Message)
| DeleteQueue (queue : Queue)
| Subscribe (TopicArn : pyval) (Protocol : string) (Endpoint : pyval)
| Unsubscribe (SubscriptionArn : pyval)
| RecordLifecycleActionHeartbeat
    (LifecycleHookName AutoScalingGroupName LifecycleActionToken InstanceId : pyval)
| CompleteLifecycleAction
    (LifecycleHookName AutoScalingGroupName LifecycleActionToken : pyval)
    (LifecycleActionResult : string) (InstanceId : pyval).

(** A computation: the events it caused, then its value or the exception
    that ended it. *)
Definition M (A : Type) : Type := list event * result A.

Definition ret {A} (a : A) : M A := ([], Ret a).
Definition lift {A} (r : result A) : M A := ([], r).
Definition bind {A B} (m : M A) (k : A -> M B) : M B :=
  match m with
  | (t, Ret a) => let (t', r) := k a in ((t ++ t')%list, r)
  | (t, Raise e) => (t, Raise e)
  end.
Definition call {A} (e : event) (answer : result A) : M A := ([e], answer).

Notation "'let*' x ':=' c1 'in' c2" := (bind c1 (fun x => c2))
  (at level 10, x name, c1 at level 100, c2 at level 200).
Notation "c1 ';;' c2" := (bind c1 (fun _ => c2))
  (at level 100, c2 at level 200, right associativity).

Definition trace {A} (m : M A) : list event := fst m.
Definition outcome {A} (m : M A) : result A := snd m.

(** The messages a trace asks the queue to delete, in order. *)
Definition deletions (t : list event) : list Message :=
  omap (fun e => match e with DeleteMessage m => Some m | _ => None end) t.

(** The queues a trace asks the service to create, with their attributes. *)
Definition creations (t : list event) : list (string * list (string * string)) :=
  omap (fun e => match e with CreateQueue n a => Some (n, a) | _ => None end) t.

(** The service calls of a trace: its events other than log lines. *)
Definition requests (t : list event) : list event :=
  List.filter (fun e => match e with Log _ => false | _ => true end) t.

(** [logging.info(line)] *)
Definition logging_info (line : string) : M unit := call (Log line) (Ret tt).

(** [logging.info(s + x)]: the argument is evaluated first. *)
Definition logging_info_add {A} `{Py.Operand A} (s : string) (x : A) : M unit :=
  let* line := lift (Py.str_add s x) in logging_info line.

(** How the services answer. *)
Record AWS : Type := {
  boto3_client : string -> pyval -> result Client;
  boto3_resource : string -> pyval -> result unit;
  sqs_create_queue : string -> list (string * string) -> result pyval;
  sqs_tag_queue : pyval -> pyval -> result unit;
  queue_load : Queue -> result (gmap string string);
  queue_set_attributes : Queue -> list (string * string) -> result unit;
  queue_receive_messages : Queue -> result (list Message);
  message_delete : Message -> result unit;
  queue_delete : Queue -> result unit;
  sns_subscribe : pyval -> string -> pyval -> result pyval;
  sns_unsubscribe : pyval -> result unit;
  autoscaling_record_lifecycle_action_heartbeat :
    pyval -> pyval -> pyval -> pyval -> result unit;
  autoscaling_complete_lifecycle_action :
    pyval -> pyval -> pyval -> string -> pyval -> result unit
}.

(** ** A JSON decoder

    [json.loads] is a parameter of the module below.  To run the module on
    message texts, this is a decoder for JSON without [\u] escapes and
    without the [NaN] and [Infinity] literals. *)
Module Json.

Definition dquote : ascii := "034".

Definition is_space (c : ascii) : bool :=
  Ascii.eqb c " " || Ascii.eqb c "009" || Ascii.eqb c "010" || Ascii.eqb c "013".

Fixpoint skip_space (s : string) : string :=
  match s with
  | String c s' => if is_space c then skip_space s' else s
  | EmptyString => s
  end.

Definition unescape (c : ascii) : option ascii :=
  if Ascii.eqb c dquote then Some dquote
  else if Ascii.eqb c "\" then Some "\"%char
  else if Ascii.eqb c "/" then Some "/"%char
  else if Ascii.eqb c "b" then Some "008"%char
  else if Ascii.eqb c "f" then Some "012"%char
  else if Ascii.eqb c "n" then Some "010"%char
  else if Ascii.eqb c "r" then Some "013"%char
  else if Ascii.eqb c "t" then Some "009"%char
  else None.

(** The characters of a string after its opening quote, and what follows
    the closing quote. *)
Fixpoint string_body (s : string) : option (string * string) :=
  match s with
  | EmptyString => None
  | String c s' =>
      if Ascii.eqb c dquote then Some (EmptyString, s')
      else if Ascii.eqb c "\" then
        match s' with
        | String e s'' =>
            match unescape e, string_body s'' with
            | Some x, Some (t, rest) => Some (String x t, rest)
            | _, _ => None
            end
        | EmptyString => None
        end
      else if (nat_of_ascii c <? 32)%nat then None
      else
        match string_body s' with
        | Some (t, rest) => Some (String c t, rest)
        | None => None
        end
  end.

Definition is_digit (c : ascii) : bool :=
  ((48 <=? nat_of_ascii c) && (nat_of_ascii c <=? 57))%nat.

(** The longest prefix of digits, and the rest. *)
Fixpoint digits (s : string) : string * string :=
  match s with
  | String c s' =>
      if is_digit c then let (d, rest) := digits s' in (String c d, rest)
      else (EmptyString, s)
  | EmptyString => (EmptyString, s)
  end.

Fixpoint decimal (d : string) (acc : Z) : Z :=
  match d with
  | String c d' => decimal d' (10 * acc + Z.of_nat (nat_of_ascii c - 48))
  | EmptyString => acc
  end.

Definition strip (p s : string) : option string :=
  if String.prefix p s
  then Some (String.substring (String.length p) (String.length s - String.length p) s)
  else None.

(** An optional sign, an integer part without leading zeros, an optional
    fraction and an optional exponent. *)
Definition number (s : string) : option (pyval * string) :=
  let (sign, s1) := match strip "-" s with Some r => ("-", r) | None => (EmptyString, s) end in
  let (int, s2) :=
    match strip "0" s1 with
    | Some r => ("0", r)
    | None => digits s1
    end in
  if String.eqb int EmptyString then None else
  let frac :=
    match strip "." s2 with
    | Some r => let (d, r') := digits r in
                if String.eqb d EmptyString then None else Some ("." ++ d, r')
    | None => Some (EmptyString, s2)
    end in
  match frac with
  | None => None
  | Some (frac, s3) =>
      let exponent :=
        match s3 with
        | String c r =>
            if Ascii.eqb c "e" || Ascii.eqb c "E" then
              let (sg, r1) :=
                match strip "+" r, strip "-" r with
                | Some r1, _ => ("+", r1)
                | _, Some r1 => ("-", r1)
                | _, _ => (EmptyString, r)
                end in
              let (d, r2) := digits r1 in
              if String.eqb d EmptyString then None else Some ("e" ++ sg ++ d, r2)
            else Some (EmptyString, s3)
        | EmptyString => Some (EmptyString, s3)
        end in
      match exponent with
      | None => None
      | Some (ex, s4) =>
          if String.eqb frac EmptyString && String.eqb ex EmptyString
          then Some (PInt (if String.eqb sign "-" then - decimal int 0 else decimal int 0), s4)
          else Some (PFloat (sign ++ int ++ frac ++ ex), s4)
      end
  end.

Fixpoint value (fuel : nat) (s : string) : option (pyval * string) :=
  match fuel with
  | O => None
  | S fuel =>
      match skip_space s with
      | EmptyString => None
      | String c s1 as s0 =>
          if Ascii.eqb c "{" then
            match strip "}" (skip_space s1) with
            | Some rest => Some (PDict ∅, rest)
            | None => members fuel s1 ∅
            end
          else if Ascii.eqb c "[" then
            match strip "]" (skip_space s1) with
            | Some rest => Some (PList [], rest)
            | None => elements fuel s1 []
            end
          else if Ascii.eqb c dquote then
            match string_body s1 with
            | Some (t, rest) => Some (PStr t, rest)
            | None => None
            end
          else
            match strip "true" s0, strip "false" s0, strip "null" s0 with
            | Some rest, _, _ => Some (PBool true, rest)
            | _, Some rest, _ => Some (PBool false, rest)
            | _, _, Some rest => Some (PNone, rest)
            | _, _, _ => number s0
            end
      end
  end
with members (fuel : nat) (s : string) (acc : gmap string pyval)
    : option (pyval * string) :=
  match fuel with
  | O => None
  | S fuel =>
      match skip_space s with
      | String c s1 =>
          if Ascii.eqb c dquote then
            match string_body s1 with
            | Some (k, s2) =>
                match strip ":" (skip_space s2) with
                | Some s3 =>
                    match value fuel s3 with
                    | Some (v, s4) =>
                        match strip "," (skip_space s4), strip "}" (skip_space s4) with
                        | Some s5, _ => members fuel s5 (<[k := v]> acc)
                        | _, Some s5 => Some (PDict (<[k := v]> acc), s5)
                        | _, _ => None
                        end
                    | None => None
                    end
                | None => None
                end
            | None => None
            end
          else None
      | EmptyString => None
      end
  end
with elements (fuel : nat) (s : string) (acc : list pyval)
    : option (pyval * string) :=
  match fuel with
  | O => None
  | S fuel =>
      match value fuel s with
      | Some (v, s1) =>
          match strip "," (skip_space s1), strip "]" (skip_space s1) with
          | Some s2, _ => elements fuel s2 (acc ++ [v])%list
          | _, Some s2 => Some (PList (acc ++ [v])%list, s2)
          | _, _ => None
          end
      | None => None
      end
  end.

Definition loads (s : string) : result pyval :=
  match value (S (String.length s)) s with
  | Some (v, rest) =>
      if String.eqb (skip_space rest) EmptyString then Ret v else Raise ValueError
  | None => Raise ValueError
  end.

(** A JSON text written with ['] where JSON has the double quote. *)
Fixpoint text (s : string) : string :=
  match s with
  | String c s' => String (if Ascii.eqb c "'" then dquote else c) (text s')
  | EmptyString => EmptyString
  end.

End Json.

(** ** The module *)

(** The module-level names, bound once when the module is imported. *)
Record globals : Type := {
  CONFIG : gmap string pyval;
  INSTANCE_ID : string;
  QUEUE_NAME : string
}.

(** Lines 29-31.  [config] is [shudder.config.CONFIG], [instance_id] the
    answer of [metadata.get_instance_id()], and [py_str] Python's [str] on
    the values that are not a [str] themselves: [format] with an empty
    format specification returns a [str] as it is. *)
Definition import_queue (py_str : pyval -> string) (config : gmap string pyval)
    (instance_id : string) : result globals :=
  match Py.lookup_key config "sqs_prefix" with
  | Ret prefix =>
      let prefix := match prefix with PStr s => s | _ => py_str prefix end in
      Ret {| CONFIG := config;
             INSTANCE_ID := instance_id;
             QUEUE_NAME := prefix ++ "-" ++ instance_id |}
  | Raise e => Raise e
  end.

(** ** Inputs for the examples *)
Module Demo.

Definition topic : string := "arn:aws:sns:us-east-1:123456789012:scale-down".
Definition queue_arn : string := "arn:aws:sqs:us-east-1:123456789012:myapp-i-0123".
Definition queue_url : pyval :=
  PStr "https://sqs.us-east-1.amazonaws.com/123456789012/myapp-i-0123".

Definition config : gmap string pyval :=
  list_to_map [("region", PStr "us-east-1"); ("sqs_prefix", PStr "myapp");
               ("sns_topic", PStr topic)].

Definition G : globals :=
  {| CONFIG := config; INSTANCE_ID := "i-0123"; QUEUE_NAME := "myapp-i-0123" |}.

(** The same module with [queue_tags] set, to a [str]. *)
Definition tagged : globals :=
  {| CONFIG := <["queue_tags" := PStr "team=ops"]> config;
     INSTANCE_ID := "i-0123"; QUEUE_NAME := "myapp-i-0123" |}.

(** The queue as [create_queue] makes it, and as it is once its attributes
    have been read. *)
Definition queue : Queue := {| url := queue_url; data := None |}.
Definition loaded_queue : Queue :=
  {| url := queue_url; data := Some {["QueueArn" := queue_arn]} |}.

Definition conn : Client := {| service := "sqs"; region_name := PStr "us-east-1" |}.

(** A termination notice for this instance. *)
Definition ours : Message :=
  {| receipt_handle := "rh-ours";
     body := Json.text "{'Type': 'Notification', 'Message': '{\'LifecycleTransition\': \'autoscaling:EC2_INSTANCE_TERMINATING\', \'EC2InstanceId\': \'i-0123\', \'LifecycleHookName\': \'drain\', \'AutoScalingGroupName\': \'web\', \'LifecycleActionToken\': \'token-1\'}'}" |}.

(** A termination notice for another instance. *)
Definition other : Message :=
  {| receipt_handle := "rh-other";
     body := Json.text "{'Type': 'Notification', 'Message': '{\'LifecycleTransition\': \'autoscaling:EC2_INSTANCE_TERMINATING\', \'EC2InstanceId\': \'i-9999\', \'LifecycleHookName\': \'drain\', \'AutoScalingGroupName\': \'web\', \'LifecycleActionToken\': \'token-2\'}'}" |}.

(** A termination notice that names no instance. *)
Definition anonymous : Message :=
  {| receipt_handle := "rh-anonymous";
     body := Json.text "{'Type': 'Notification', 'Message': '{\'LifecycleTransition\': \'autoscaling:EC2_INSTANCE_TERMINATING\', \'LifecycleHookName\': \'drain\'}'}" |}.

(** A notification whose body is not JSON. *)
Definition garbled : Message :=
  {| receipt_handle := "rh-garbled";
     body := Json.text "{'Type': 'Notification', 'Message': 'scale-down at noon'}" |}.

(** The envelope of the four messages, decoded. *)
Definition envelope (inner : string) : gmap string pyval :=
  list_to_map [("Type", PStr "Notification"); ("Message", PStr inner)].

Definition inner_of_ours : string :=
  Json.text "{'LifecycleTransition': 'autoscaling:EC2_INSTANCE_TERMINATING', 'EC2InstanceId': 'i-0123', 'LifecycleHookName': 'drain', 'AutoScalingGroupName': 'web', 'LifecycleActionToken': 'token-1'}".

Definition inner_of_anonymous : string :=
  Json.text "{'LifecycleTransition': 'autoscaling:EC2_INSTANCE_TERMINATING', 'LifecycleHookName': 'drain'}".

Definition event_of_anonymous : gmap string pyval :=
  list_to_map [("LifecycleTransition", PStr "autoscaling:EC2_INSTANCE_TERMINATING");
               ("LifecycleHookName", PStr "drain")].

(** The payload of [ours]. *)
Definition event_of_ours : gmap string pyval :=
  list_to_map [("LifecycleTransition", PStr "autoscaling:EC2_INSTANCE_TERMINATING");
               ("EC2InstanceId", PStr "i-0123");
               ("LifecycleHookName", PStr "drain");
               ("AutoScalingGroupName", PStr "web");
               ("LifecycleActionToken", PStr "token-1")].

(** Services that answer every call, hand out [batch] on a receive and
    answer the tagging call with [tagging]. *)
Definition aws (batch : list Message) (tagging : result unit) : AWS :=
  {| boto3_client := fun name region => Ret {| service := name; region_name := region |};
     boto3_resource := fun _ _ => Ret tt;
     sqs_create_queue := fun _ _ => Ret (PDict {["QueueUrl" := queue_url]});
     sqs_tag_queue := fun _ _ => tagging;
     queue_load := fun _ => Ret {["QueueArn" := queue_arn]};
     queue_set_attributes := fun _ _ => Ret tt;
     queue_receive_messages := fun _ => Ret batch;
     message_delete := fun _ => Ret tt;
     queue_delete := fun _ => Ret tt;
     sns_subscribe := fun _ _ _ =>
       Ret (PDict {["SubscriptionArn" := PStr "arn:aws:sns:us-east-1:123456789012:scale-down:1"]});
     sns_unsubscribe := fun _ => Ret tt;
     autoscaling_record_lifecycle_action_heartbeat := fun _ _ _ _ => Ret tt;
     autoscaling_complete_lifecycle_action := fun _ _ _ _ _ => Ret tt |}.

(** The same module with [queue_tags] set, to a mapping. *)
Definition tagged_with_mapping : globals :=
  {| CONFIG := <["queue_tags" := PDict {["team" := PStr "ops"]}]> config;
     INSTANCE_ID := "i-0123"; QUEUE_NAME := "myapp-i-0123" |}.

(** The payload of a notice of another transition, which names no instance. *)
Definition event_of_launch : gmap string pyval :=
  list_to_map [("LifecycleTransition", PStr "autoscaling:EC2_INSTANCE_LAUNCHING");
               ("LifecycleHookName", PStr "warm")].

(** The payload of [ours] with a number for a token. *)
Definition event_with_numeric_token : gmap string pyval :=
  <["LifecycleActionToken" := PInt 7]> event_of_ours.

(** A policy that grants something else already. *)
Definition older_statement : pyval :=
  PDict (list_to_map [("Sid", PStr "older"); ("Effect", PStr "Allow");
                      ("Action", PStr "SQS:ReceiveMessage")]).

Definition policy : gmap string pyval :=
  list_to_map [("Version", PStr "2012-10-17"); ("Id", PStr "queue-policy");
               ("Statement", PList [older_statement])].

(** A statement without ['Sid'], which a policy may hold. *)
Definition unnamed_statement : pyval :=
  PDict (list_to_map [("Effect", PStr "Deny"); ("Action", PStr "SQS:DeleteQueue")]).

(** The statement lines 71-76 build for the identifier ["5d41"]. *)
Definition our_statement : pyval :=
  PDict (list_to_map
    [("Action", PStr "SQS:SendMessage");
     ("Effect", PStr "Allow");
     ("Principal", PDict {["AWS" := PStr "*"]});
     ("Resource", PStr queue_arn);
     ("Sid", PStr "5d41");
     ("Condition",
       PDict {["ForAllValues:ArnEquals" :=
                 PDict {["aws:SourceArn" := PStr topic]}]})]).

(** Services that refuse to delete the queue. *)
Definition aws_keeping_queue : AWS :=
  {| boto3_client := fun name region => Ret {| service := name; region_name := region |};
     boto3_resource := fun _ _ => Ret tt;
     sqs_create_queue := fun _ _ => Ret (PDict {["QueueUrl" := queue_url]});
     sqs_tag_queue := fun _ _ => Ret tt;
     queue_load := fun _ => Ret {["QueueArn" := queue_arn]};
     queue_set_attributes := fun _ _ => Ret tt;
     queue_receive_messages := fun _ => Ret [];
     message_delete := fun _ => Ret tt;
     queue_delete := fun _ => Raise (BotoError "ClientError");
     sns_subscribe := fun _ _ _ =>
       Ret (PDict {["SubscriptionArn" := PStr "arn:aws:sns:us-east-1:123456789012:scale-down:1"]});
     sns_unsubscribe := fun _ => Ret tt;
     autoscaling_record_lifecycle_action_heartbeat := fun _ _ _ _ => Ret tt;
     autoscaling_complete_lifecycle_action := fun _ _ _ _ _ => Ret tt |}.

Definition subscription : pyval :=
  PStr "arn:aws:sns:us-east-1:123456789012:scale-down:1".

End Demo.

Section Queue.

(** [json.loads], [json.dumps] and [hashlib.md5(...).hexdigest()]. *)
Variable json_loads : string -> result pyval.
Variable json_dumps : pyval -> string.
Variable md5_hexdigest : string -> string.

Context (aws : AWS) (G : globals).

(** [json.loads(v)]: the argument has to be a [str]. *)
Definition json_loads_val (v : pyval) : result pyval :=
  match v with
  | PStr s => json_loads s
  | _ => Raise TypeError
  end.

(** [boto3.client(name, region_name=CONFIG['region'])] *)
Definition new_client (name : string) : M Client :=
  let* region := lift (Py.lookup_key (CONFIG G) "region") in
  call (NewClient name region) (boto3_client aws name region).

(** [boto3.resource(name, region_name=CONFIG['region'])] *)
Definition new_resource (name : string) : M unit :=
  let* region := lift (Py.lookup_key (CONFIG G) "region") in
  call (NewResource name region) (boto3_resource aws name region).

(** [queue.attributes] *)
Definition queue_attributes (queue : Queue) : M (gmap string string) :=
  match data queue with
  | Some attributes => ret attributes
  | None => call (GetQueueAttributes queue) (queue_load aws queue)
  end.

Definition create_queue : M (Client * Queue) :=
  let* region := lift (Py.lookup_key (CONFIG G) "region") in
  logging_info_add ("Connecting to sqs " ++ QUEUE_NAME G ++ "on region ") region ;;
  let* conn := new_client "sqs" in
  let Attributes := [("VisibilityTimeout", "3600")] in
  let* queue_metadata :=
    call (CreateQueue (QUEUE_NAME G) Attributes)
         (sqs_create_queue aws (QUEUE_NAME G) Attributes) in
  (if bool_decide (is_Some (CONFIG G !! "queue_tags")) then
     let* tags := lift (Py.lookup_key (CONFIG G) "queue_tags") in
     logging_info_add "Creating SQS tags: " tags ;;
     let* QueueUrl := lift (Py.getitem queue_metadata "QueueUrl") in
     let* Tags := lift (Py.lookup_key (CONFIG G) "queue_tags") in
     call (TagQueue QueueUrl Tags) (sqs_tag_queue aws QueueUrl Tags)
   else ret tt) ;;
  new_resource "sqs" ;;
  let* QueueUrl := lift (Py.getitem queue_metadata "QueueUrl") in
  let queue := {| url := QueueUrl; data := None |} in
  logging_info_add "queue object: " queue ;;
  ret (conn, queue).

(** Lines 67-69: the loop reads ['Sid'] of every statement. *)
Fixpoint sid_exists (statements : list pyval) (statement_id : string)
    (statement_id_exists : bool) : result bool :=
  match statements with
  | [] => Ret statement_id_exists
  | statement :: rest =>
      match Py.getitem statement "Sid" with
      | Raise e => Raise e
      | Ret sid =>
          sid_exists rest statement_id
            (if Py.eq_str sid statement_id then true else statement_id_exists)
      end
  end.

(** Lines 71-76. *)
Definition new_statement (resource : option string) (statement_id : string)
    (sns_topic : pyval) : pyval :=
  PDict (list_to_map
    [("Action", PStr "SQS:SendMessage");
     ("Effect", PStr "Allow");
     ("Principal", PDict {["AWS" := PStr "*"]});
     ("Resource", Py.of_opt_str resource);
     ("Sid", PStr statement_id);
     ("Condition",
       PDict {["ForAllValues:ArnEquals" :=
                 PDict {["aws:SourceArn" := sns_topic]}]})]).

(** Lines 62-77: what becomes of the policy read at lines 56-60. *)
Definition authorize (policy : pyval) (statement_id : string)
    (statement : pyval) : result pyval :=
  match Py.contains policy "Version" with
  | Raise e => Raise e
  | Ret has_version =>
  match (if has_version then Ret policy
         else Py.setitem policy "Version" (PStr "2008-10-17")) with
  | Raise e => Raise e
  | Ret policy =>
  match Py.contains policy "Statement" with
  | Raise e => Raise e
  | Ret has_statement =>
  match (if has_statement then Ret policy
         else Py.setitem policy "Statement" (PList [])) with
  | Raise e => Raise e
  | Ret policy =>
  match Py.getitem policy "Statement" with
  | Raise e => Raise e
  | Ret statements =>
  match Py.iterate statements with
  | Raise e => Raise e
  | Ret each =>
  match sid_exists each statement_id false with
  | Raise e => Raise e
  | Ret true => Ret policy
  | Ret false =>
      match Py.append statements statement with
      | Raise e => Raise e
      | Ret statements => Py.setitem policy "Statement" statements
      end
  end end end end end end end.

(** A statement that line 68 can read. *)
Definition has_sid (statement : pyval) : Prop :=
  exists sid : pyval, Py.getitem statement "Sid" = Ret sid.

(** Whether line 68 holds of a statement. *)
Definition sid_is (statement_id : string) (statement : pyval) : bool :=
  match Py.getitem statement "Sid" with
  | Ret sid => Py.eq_str sid statement_id
  | Raise _ => false
  end.

Definition subscribe_sns (queue : Queue) : M (Client * pyval) :=
  let* sns_topic := lift (Py.lookup_key (CONFIG G) "sns_topic") in
  let* attributes := queue_attributes queue in
  let* text := lift (Py.add_opt_str sns_topic (attributes !! "QueueArn")) in
  let statement_id := md5_hexdigest text in
  logging_info_add "Statement ID: " statement_id ;;
  let existing_policy := attributes !! "Policy" in
  let* policy :=
    if Py.truthy existing_policy
    then lift (json_loads_val (Py.of_opt_str existing_policy))
    else ret (PDict ∅) in
  logging_info_add "Policy: " policy ;;
  let* policy :=
    lift (authorize policy statement_id
            (new_statement (attributes !! "QueueArn") statement_id sns_topic)) in
  logging_info_add "Policy:" policy ;;
  call (SetQueueAttributes queue [("Policy", json_dumps policy)])
       (queue_set_attributes aws queue [("Policy", json_dumps policy)]) ;;
  logging_info "Subscribing the SNS topic to the queue" ;;
  let* conn := new_client "sns" in
  let* TopicArn := lift (Py.lookup_key (CONFIG G) "sns_topic") in
  let Endpoint := Py.of_opt_str (attributes !! "QueueArn") in
  let* sub := call (Subscribe TopicArn "sqs" Endpoint)
                   (sns_subscribe aws TopicArn "sqs" Endpoint) in
  let* sns_arn := lift (Py.getitem sub "SubscriptionArn") in
  logging_info_add "SNS:" sns_arn ;;
  ret (conn, sns_arn).

Definition termination_msg : string := "autoscaling:EC2_INSTANCE_TERMINATING".

(** Line 97: the three conjuncts of the test, left to right; a later one
    is evaluated only when the earlier ones hold. *)
Definition is_our_termination (message : pyval) : result bool :=
  match Py.contains message "LifecycleTransition" with
  | Raise e => Raise e
  | Ret false => Ret false
  | Ret true =>
      match Py.getitem message "LifecycleTransition" with
      | Raise e => Raise e
      | Ret transition =>
          if Py.eq_str transition termination_msg then
            match Py.getitem message "EC2InstanceId" with
            | Raise e => Raise e
            | Ret instance => Ret (Py.eq_str instance (INSTANCE_ID G))
            end
          else Ret false
      end
  end.

Definition should_terminate (msg : Message) : M pyval :=
  let* first_box := lift (json_loads (body msg)) in
  logging_info_add "Message raw:" first_box ;;
  let* inner := lift (Py.getitem first_box "Message") in
  let* message := lift (json_loads_val inner) in
  logging_info_add "SQS Message:" message ;;
  let* ours := lift (is_our_termination message) in
  if ours then
    logging_info "We need to terminate. Hasta la vista." ;;
    ret message
  else
    ret PNone.

Definition clean_up_sns (sns_conn : Client) (sns_arn : pyval) (queue : Queue) : M unit :=
  logging_info "Deleting SQS queue" ;;
  call (DeleteQueue queue) (queue_delete aws queue) ;;
  logging_info "Unsubscribing SNS topic" ;;
  call (Unsubscribe sns_arn) (sns_unsubscribe aws sns_arn).

(** [logging.info(s + message[k])] *)
Definition log_field (s : string) (message : pyval) (k : string) : M unit :=
  let* v := lift (Py.getitem message k) in
  logging_info_add s v.

Definition record_lifecycle_action_heartbeat (message : pyval) : M unit :=
  logging_info "Recording lifecycle heartbeat" ;;
  log_field "LifecycleHookName: " message "LifecycleHookName" ;;
  log_field "AutoScalingGroupName: " message "AutoScalingGroupName" ;;
  log_field "LifecycleActionToken: " message "LifecycleActionToken" ;;
  log_field "InstanceId: " message "EC2InstanceId" ;;
  let* conn := new_client "autoscaling" in
  let* hook := lift (Py.getitem message "LifecycleHookName") in
  let* group := lift (Py.getitem message "AutoScalingGroupName") in
  let* token := lift (Py.getitem message "LifecycleActionToken") in
  let* instance := lift (Py.getitem message "EC2InstanceId") in
  call (RecordLifecycleActionHeartbeat hook group token instance)
       (autoscaling_record_lifecycle_action_heartbeat aws hook group token instance).

Definition complete_lifecycle_action (message : pyval) : M unit :=
  logging_info "Completing lifecycle action" ;;
  log_field "LifecycleHookName: " message "LifecycleHookName" ;;
  log_field "AutoScalingGroupName: " message "AutoScalingGroupName" ;;
  logging_info "LifecycleActionResult: CONTINUE" ;;
  log_field "InstanceId: " message "EC2InstanceId" ;;
  let* conn := new_client "autoscaling" in
  let* hook := lift (Py.getitem message "LifecycleHookName") in
  let* group := lift (Py.getitem message "AutoScalingGroupName") in
  let* token := lift (Py.getitem message "LifecycleActionToken") in
  let* instance := lift (Py.getitem message "EC2InstanceId") in
  call (CompleteLifecycleAction hook group token "CONTINUE" instance)
       (autoscaling_complete_lifecycle_action aws hook group token "CONTINUE" instance).

(** Lines 145-150: the body of the [for] ends in [return], so the loop
    never reaches a second message. *)
Definition poll_queue_loop (messages : list Message) : M pyval :=
  match messages with
  | message :: _ =>
      logging_info "Polling queue for message" ;;
      logging_info_add "Polled message: " message ;;
      call (DeleteMessage message) (message_delete aws message) ;;
      should_terminate message
  | [] => ret (PBool false)
  end.

Definition poll_queue (conn : Client) (queue : Queue) : M pyval :=
  let* messages := call (ReceiveMessages queue) (queue_receive_messages aws queue) in
  poll_queue_loop messages.

(** ** Tactics *)

(** Case analysis on the innermost scrutinee of the goal. *)
Ltac branch :=
  match goal with
  | |- context [match ?x with _ => _ end] =>
      lazymatch x with
      | context [match _ with _ => _ end] => fail
      | _ => destruct x eqn:?
      end
  end; cbn -[authorize] in *.

Ltac run_create_queue :=
  unfold create_queue, new_client, new_resource, logging_info_add, Py.str_add,
    Py.lookup_key, outcome, trace;
  cbn.

(** ** What the log lines do

    Six of the log lines add to a [str] a value that is not a [str] on any
    run that could go on after them: the parsed envelope (line 92), the
    parsed body (line 94), the policy (lines 61 and 78), the queue resource
    (line 47) and the message resource (line 147).  The first of them that
    a call reaches ends the call with a [TypeError], before the statements
    after it run. *)

Lemma logging_info_add_pyval (s : string) (v : pyval) :
  logging_info_add s v =
  match v with
  | PStr t => ([Log (s ++ t)], Ret tt)
  | _ => ([], Raise TypeError)
  end.
Proof. by destruct v. Qed.

Lemma logging_info_add_Message (s : string) (m : Message) :
  logging_info_add s m = ([], Raise TypeError).
Proof. done. Qed.

Lemma logging_info_add_Queue (s : string) (q : Queue) :
  logging_info_add s q = ([], Raise TypeError).
Proof. done. Qed.

(** Line 92 is passed by a [str] only, and line 93 by a [dict] only. *)
Lemma should_terminate_raises (msg : Message) :
  exists e, outcome (should_terminate msg) = Raise e.
Proof.
  unfold should_terminate.
  destruct (json_loads (body msg)) as [[]|]; cbn; eauto.
Qed.

Lemma should_terminate_envelope (msg : Message) (first_box : gmap string pyval) :
  json_loads (body msg) = Ret (PDict first_box) ->
  should_terminate msg = ([], Raise TypeError).
Proof. intros Hbox. unfold should_terminate. by rewrite Hbox. Qed.

Lemma poll_queue_loop_cons (message : Message) (rest : list Message) :
  poll_queue_loop (message :: rest) =
  ([Log "Polling queue for message"], Raise TypeError).
Proof. done. Qed.

Lemma poll_queue_cons (conn : Client) (queue : Queue)
    (message : Message) (rest : list Message) :
  queue_receive_messages aws queue = Ret (message :: rest) ->
  poll_queue conn queue =
  ([ReceiveMessages queue; Log "Polling queue for message"], Raise TypeError).
Proof. intros Hbatch. unfold poll_queue. by rewrite Hbatch. Qed.

(** ** The filter *)

(** Line 97 on a [dict]. *)
Lemma is_our_termination_dict (message : gmap string pyval) :
  is_our_termination (PDict message) =
  match message !! "LifecycleTransition" with
  | None => Ret false
  | Some transition =>
      if Py.eq_str transition termination_msg then
        match message !! "EC2InstanceId" with
        | None => Raise (KeyError "EC2InstanceId")
        | Some instance => Ret (Py.eq_str instance (INSTANCE_ID G))
        end
      else Ret false
  end.
Proof.
  unfold is_our_termination. cbn.
  destruct (message !! "LifecycleTransition") as [transition|] eqn:Ht.
  - rewrite bool_decide_eq_true_2 by eauto.
    destruct (Py.eq_str transition termination_msg); [|done].
    by destruct (message !! "EC2InstanceId").
  - rewrite bool_decide_eq_false_2; [done|]. by intros [? ?].
Qed.

Lemma eq_str_spec (v : pyval) (s : string) :
  Py.eq_str v s = true <-> v = PStr s.
Proof.
  destruct v; cbn; try (split; [discriminate|congruence]).
  rewrite String.eqb_eq. split; congruence.
Qed.

(** The test holds exactly of the notices for this instance. *)
Lemma is_our_termination_true (message : gmap string pyval) :
  is_our_termination (PDict message) = Ret true <->
  message !! "LifecycleTransition" = Some (PStr termination_msg) /\
  message !! "EC2InstanceId" = Some (PStr (INSTANCE_ID G)).
Proof.
  rewrite is_our_termination_dict.
  destruct (message !! "LifecycleTransition") as [transition|];
    [|split; [discriminate|intros [? _]; discriminate]].
  destruct (Py.eq_str transition termination_msg) eqn:Ht.
  - apply eq_str_spec in Ht as ->.
    destruct (message !! "EC2InstanceId") as [instance|];
      [|split; [discriminate|intros [_ ?]; discriminate]].
    split.
    + intros [= Hi]. apply eq_str_spec in Hi as ->. done.
    + intros [_ [= ->]]. f_equal. by apply eq_str_spec.
  - split; [discriminate|]. intros [[= ->] _].
    assert (Py.eq_str (PStr termination_msg) termination_msg = true)
      by by apply eq_str_spec.
    congruence.
Qed.

(** C1, on a notice for this instance.  When both layers of a message
    parse, the transition is the terminating one and the instance is this
    one, the test of line 97 holds of the parsed body, but
    [should_terminate] does not return it: the log line 92 adds the parsed
    envelope, a [dict], to a [str] and the call ends there with a
    [TypeError], before the body is unwrapped. *)
Theorem should_terminate_our_notice (msg : Message)
    (first_box message : gmap string pyval) (inner : string) :
  json_loads (body msg) = Ret (PDict first_box) ->
  first_box !! "Message" = Some (PStr inner) ->
  json_loads inner = Ret (PDict message) ->
  message !! "LifecycleTransition" = Some (PStr termination_msg) ->
  message !! "EC2InstanceId" = Some (PStr (INSTANCE_ID G)) ->
  is_our_termination (PDict message) = Ret true /\
  should_terminate msg = ([], Raise TypeError).
Proof.
  intros Hbox _ _ Ht Hi. split.
  - by apply is_our_termination_true.
  - by apply should_terminate_envelope with first_box.
Qed.

(** C9, on a terminating notice without ['EC2InstanceId'].  The test of
    line 97 raises [KeyError] on the parsed body, since only
    ['LifecycleTransition'] is guarded by a membership test; but
    [should_terminate] never evaluates the test: it has raised
    [TypeError] at the log line 92. *)
Theorem should_terminate_without_instance_id (msg : Message)
    (first_box message : gmap string pyval) (inner : string) :
  json_loads (body msg) = Ret (PDict first_box) ->
  first_box !! "Message" = Some (PStr inner) ->
  json_loads inner = Ret (PDict message) ->
  message !! "LifecycleTransition" = Some (PStr termination_msg) ->
  message !! "EC2InstanceId" = None ->
  is_our_termination (PDict message) = Raise (KeyError "EC2InstanceId") /\
  should_terminate msg = ([], Raise TypeError).
Proof.
  intros Hbox _ _ Ht Hi. split.
  - rewrite is_our_termination_dict, Ht, Hi.
    by rewrite (proj2 (eq_str_spec _ _) eq_refl).
  - by apply should_terminate_envelope with first_box.
Qed.

(** C2, on a message whose body is not JSON, received first in a batch.
    [should_terminate] raises [TypeError] at the log line 92, while it
    handles the envelope and before it reads the body; [poll_queue] has
    raised [TypeError] before that, at the log line 147, and has not
    asked for the message to be deleted. *)
Theorem poll_queue_garbled (conn : Client) (queue : Queue) (msg : Message)
    (rest : list Message) (first_box : gmap string pyval) (inner : string) (e : exn) :
  queue_receive_messages aws queue = Ret (msg :: rest) ->
  json_loads (body msg) = Ret (PDict first_box) ->
  first_box !! "Message" = Some (PStr inner) ->
  json_loads inner = Raise e ->
  should_terminate msg = ([], Raise TypeError) /\
  outcome (poll_queue conn queue) = Raise TypeError /\
  deletions (trace (poll_queue conn queue)) = [].
Proof.
  intros Hbatch Hbox _ _. split.
  - by apply should_terminate_envelope with first_box.
  - by rewrite (poll_queue_cons conn queue msg rest Hbatch).
Qed.

(** C10, what one call of [poll_queue] does.  On an empty batch it
    returns [False].  On any other batch it logs one line and raises
    [TypeError] at the log line 147, which adds the message resource to a
    [str]: the first message is neither deleted nor classified, and no
    later message is touched. *)
Theorem poll_queue_first_message (conn : Client) (queue : Queue) :
  (queue_receive_messages aws queue = Ret [] ->
   poll_queue conn queue = ([ReceiveMessages queue], Ret (PBool false))) /\
  (forall (message : Message) (rest : list Message),
     queue_receive_messages aws queue = Ret (message :: rest) ->
     poll_queue conn queue =
     ([ReceiveMessages queue; Log "Polling queue for message"], Raise TypeError)).
Proof.
  split.
  - intros Hbatch. unfold poll_queue. by rewrite Hbatch.
  - intros message rest. apply poll_queue_cons.
Qed.

(** C4, on any batch: the batch of a notice for another instance and a
    notice for this one, or a batch of one message.  No message of the
    batch is deleted and no lifecycle event comes out: the call raises
    [TypeError] at the log line 147, on the first message, before the
    deletion of line 148 and the classification of line 149. *)
Theorem poll_queue_received_message_kept (conn : Client) (queue : Queue)
    (batch : list Message) (message : Message) :
  queue_receive_messages aws queue = Ret batch ->
  In message batch ->
  ~ In message (deletions (trace (poll_queue conn queue))) /\
  outcome (poll_queue conn queue) = Raise TypeError.
Proof.
  intros Hbatch Hin. destruct batch as [|first rest]; [destruct Hin|].
  rewrite (poll_queue_cons conn queue first rest Hbatch). cbn. tauto.
Qed.

(** ** The policy *)

(** A policy that is a [str] passes the log line 61 and fails in lines
    62-67, which assign to it or subscript it. *)
Lemma authorize_str (s statement_id : string) (statement : pyval) :
  exists e, authorize (PStr s) statement_id statement = Raise e.
Proof.
  unfold authorize. cbn.
  destruct (Py.substring_of "Version" s); cbn; eauto.
  destruct (Py.substring_of "Statement" s); cbn; eauto.
Qed.

(** Lines 62-77 on a [dict].  Apart from the log lines around them, they
    add the statement once: a policy they have produced is left as it is
    when they run again. *)

Lemma new_statement_sid (resource : option string) (statement_id : string)
    (sns_topic : pyval) :
  Py.getitem (new_statement resource statement_id sns_topic) "Sid" =
  Ret (PStr statement_id).
Proof. done. Qed.

Lemma sid_exists_app (l : list pyval) (x : pyval) (sid : string) (b b' : bool) :
  sid_exists l sid b = Ret b' ->
  sid_exists (l ++ [x])%list sid b = sid_exists [x] sid b'.
Proof.
  revert b. induction l as [|y l IH]; intros b.
  - by intros [= ->].
  - cbn. destruct (Py.getitem y "Sid"); [|discriminate]. apply IH.
Qed.

Lemma sid_exists_strings (keys : list string) (sid : string) (b : bool) :
  sid_exists (map PStr keys) sid b = if keys is [] then Ret b else Raise TypeError.
Proof. by destruct keys. Qed.

Lemma authorize_stable (d : gmap string pyval) (l : list pyval)
    (sid : string) (statement : pyval) :
  is_Some (d !! "Version") ->
  d !! "Statement" = Some (PList l) ->
  sid_exists l sid false = Ret true ->
  authorize (PDict d) sid statement = Ret (PDict d).
Proof.
  intros Hv Hs Hl. unfold authorize. cbn.
  rewrite bool_decide_eq_true_2 by done. cbn.
  rewrite bool_decide_eq_true_2 by (by rewrite Hs). cbn.
  rewrite Hs. cbn. by rewrite Hl.
Qed.

Lemma authorize_result (d : gmap string pyval) (sid : string)
    (statement policy : pyval) :
  Py.getitem statement "Sid" = Ret (PStr sid) ->
  authorize (PDict d) sid statement = Ret policy ->
  exists (d' : gmap string pyval) (l : list pyval),
    policy = PDict d' /\ is_Some (d' !! "Version") /\
    d' !! "Statement" = Some (PList l) /\ sid_exists l sid false = Ret true.
Proof.
  intros Hsid. unfold authorize. cbn.
  set (d1 := if bool_decide (is_Some (d !! "Version")) then d
             else <["Version" := PStr "2008-10-17"]> d).
  assert (Hv : is_Some (d1 !! "Version")).
  { subst d1. case_bool_decide; [done|]. rewrite lookup_insert_eq. eauto. }
  replace (if bool_decide (is_Some (d !! "Version")) then Ret (PDict d)
           else Ret (PDict (<["Version" := PStr "2008-10-17"]> d)))
    with (Ret (PDict d1)) by (subst d1; by case_bool_decide).
  cbn.
  set (d2 := if bool_decide (is_Some (d1 !! "Statement")) then d1
             else <["Statement" := PList []]> d1).
  assert (Hv2 : is_Some (d2 !! "Version")).
  { subst d2. case_bool_decide; [done|]. by rewrite lookup_insert_ne. }
  assert (Hs2 : is_Some (d2 !! "Statement")).
  { subst d2. case_bool_decide; [done|]. rewrite lookup_insert_eq. eauto. }
  replace (if bool_decide (is_Some (d1 !! "Statement")) then Ret (PDict d1)
           else Ret (PDict (<["Statement" := PList []]> d1)))
    with (Ret (PDict d2)) by (subst d2; by case_bool_decide).
  cbn. clearbody d2. clear d1 Hv.
  destruct Hs2 as [statements Hs2]. rewrite Hs2.
  destruct statements as [| | | |str|l|ds]; cbn; try discriminate.
  - rewrite <- (map_map (fun c => String c EmptyString) PStr), sid_exists_strings.
    by destruct (map _ _).
  - destruct (sid_exists l sid false) as [[]|] eqn:Hl; [| |discriminate].
    + intros [= <-]. by exists d2, l.
    + intros [= <-]. exists (<["Statement" := PList (l ++ [statement])%list]> d2), (l ++ [statement])%list.
      split; [done|]. split; [by rewrite lookup_insert_ne|].
      split; [by rewrite lookup_insert_eq|].
      rewrite (sid_exists_app _ _ _ _ _ Hl). cbn. rewrite Hsid. cbn.
      by rewrite String.eqb_refl.
  - rewrite <- (map_map fst PStr), sid_exists_strings.
    by destruct (map _ _).
Qed.

Lemma authorize_idempotent (d : gmap string pyval) (sid : string)
    (statement policy : pyval) :
  Py.getitem statement "Sid" = Ret (PStr sid) ->
  authorize (PDict d) sid statement = Ret policy ->
  authorize policy sid statement = Ret policy.
Proof.
  intros Hsid Hret.
  destruct (authorize_result d sid statement policy Hsid Hret)
    as (d' & l & -> & Hv & Hs & Hl).
  by apply authorize_stable with l.
Qed.

(** A policy with a version and with a statement of that identifier is
    returned as it is, its statement list included. *)
Lemma authorize_existing (d : gmap string pyval) (l : list pyval)
    (sid : string) (statement : pyval) :
  d !! "Statement" = Some (PList l) ->
  sid_exists l sid false = Ret true ->
  exists d' : gmap string pyval,
    authorize (PDict d) sid statement = Ret (PDict d') /\
    d' !! "Statement" = Some (PList l).
Proof.
  intros Hs Hl. unfold authorize. cbn.
  exists (if bool_decide (is_Some (d !! "Version")) then d
          else <["Version" := PStr "2008-10-17"]> d).
  case_bool_decide; cbn.
  - rewrite bool_decide_eq_true_2 by (by rewrite Hs). cbn.
    rewrite Hs. cbn. by rewrite Hl.
  - rewrite lookup_insert_ne by done.
    rewrite bool_decide_eq_true_2 by (by rewrite Hs). cbn.
    rewrite lookup_insert_ne by done. rewrite Hs. cbn. by rewrite Hl.
Qed.

(** C3, what every call of [subscribe_sns] does.  The call raises an
    exception, and all it has asked of the services by then is, at most,
    to read the attributes of the queue: the policy is not written and the
    topic is not subscribed.  Where lines 53-60 succeed, the policy is a
    [dict] or the decoded JSON text, and the log line 61 adds it to a
    [str]. *)
Theorem subscribe_sns_raises (queue : Queue) :
  (exists e, outcome (subscribe_sns queue) = Raise e) /\
  (requests (trace (subscribe_sns queue)) = [] \/
   requests (trace (subscribe_sns queue)) = [GetQueueAttributes queue]).
Proof.
  unfold subscribe_sns, queue_attributes, outcome, trace, logging_info_add,
    Py.str_add.
  cbn -[authorize].
  repeat branch; eauto.
  all: match goal with
       | Hs : Py.as_str ?p = Some _, Ha : authorize ?p ?i ?st = Ret _ |- _ =>
           destruct p as [| | | |str| |]; try discriminate Hs;
           destruct (authorize_str str i st) as [e' He']; congruence
       end.
Qed.

(** The first call on a queue as [create_queue] makes it, when its policy
    is absent, empty or a JSON object: the attributes are read, the
    statement identifier is logged, and the log line 61 raises. *)
Lemma subscribe_sns_dict_policy (QueueUrl : pyval) (sns_topic queue_arn : string)
    (attributes : gmap string string) (policy : gmap string pyval) :
  let queue := {| url := QueueUrl; data := None |} in
  CONFIG G !! "sns_topic" = Some (PStr sns_topic) ->
  queue_load aws queue = Ret attributes ->
  attributes !! "QueueArn" = Some queue_arn ->
  (if Py.truthy (attributes !! "Policy")
   then json_loads_val (Py.of_opt_str (attributes !! "Policy"))
   else Ret (PDict ∅)) = Ret (PDict policy) ->
  subscribe_sns queue =
  ([GetQueueAttributes queue;
    Log ("Statement ID: " ++ md5_hexdigest (sns_topic ++ queue_arn))],
   Raise TypeError).
Proof.
  intros queue Htopic Hload Harn Hpolicy.
  unfold subscribe_sns, queue_attributes, logging_info_add, Py.str_add,
    Py.lookup_key.
  cbn -[authorize]. rewrite Htopic. cbn -[authorize].
  fold queue. rewrite Hload. cbn -[authorize]. rewrite Harn. cbn -[authorize].
  destruct (Py.truthy (attributes !! "Policy")); cbn -[authorize].
  - by rewrite Hpolicy.
  - done.
Qed.

(** ** Provisioning *)

(** [create_queue] asks for at most one queue, and for no other than the
    queue of this instance with a visibility timeout of 3600 seconds. *)
Lemma create_queue_creations :
  creations (trace create_queue) = [] \/
  creations (trace create_queue) = [(QUEUE_NAME G, [("VisibilityTimeout", "3600")])].
Proof.
  run_create_queue.
  destruct (CONFIG G !! "queue_tags") as [tags|]; cbn;
    repeat branch; auto.
Qed.

(** No call of [create_queue] returns: where everything before it
    succeeds, the log line 47 adds the queue resource to a [str]. *)
Lemma create_queue_raises : exists e, outcome create_queue = Raise e.
Proof.
  run_create_queue.
  destruct (CONFIG G !! "queue_tags") as [tags|]; cbn;
    repeat branch; eauto.
Qed.

(** C7.  Once the region is configured and the client is there,
    [create_queue] asks the service for exactly one queue: the queue named
    [QUEUE_NAME], with the attribute [VisibilityTimeout] set to ['3600'],
    one hour in seconds. *)
Theorem create_queue_request (region : string) (conn : Client) :
  CONFIG G !! "region" = Some (PStr region) ->
  boto3_client aws "sqs" (PStr region) = Ret conn ->
  creations (trace create_queue) =
  [(QUEUE_NAME G, [("VisibilityTimeout", "3600")])].
Proof.
  intros Hregion Hconn. run_create_queue.
  rewrite Hregion. cbn. rewrite Hconn. cbn.
  destruct (CONFIG G !! "queue_tags") as [tags|]; cbn;
    repeat branch; auto.
Qed.

(** The tagging call stands in no [try]: with tags that are a [str], a
    call that fails ends [create_queue] with its exception, right after
    the one attempt and with nothing logged about it. *)
Lemma create_queue_str_tags_failure (region tags : string) (conn : Client)
    (queue_metadata : gmap string pyval) (QueueUrl : pyval) (e : exn) :
  CONFIG G !! "region" = Some (PStr region) ->
  boto3_client aws "sqs" (PStr region) = Ret conn ->
  sqs_create_queue aws (QUEUE_NAME G) [("VisibilityTimeout", "3600")] =
    Ret (PDict queue_metadata) ->
  queue_metadata !! "QueueUrl" = Some QueueUrl ->
  CONFIG G !! "queue_tags" = Some (PStr tags) ->
  sqs_tag_queue aws QueueUrl (PStr tags) = Raise e ->
  create_queue =
  ([Log (("Connecting to sqs " ++ QUEUE_NAME G ++ "on region ") ++ region);
    NewClient "sqs" (PStr region);
    CreateQueue (QUEUE_NAME G) [("VisibilityTimeout", "3600")];
    Log ("Creating SQS tags: " ++ tags);
    TagQueue QueueUrl (PStr tags)],
   Raise e).
Proof.
  intros Hregion Hconn Hcreate Hurl Htags Hfail. run_create_queue.
  rewrite Hregion. cbn. rewrite Hconn. cbn. rewrite Hcreate, Htags. cbn.
  rewrite Hurl. cbn. by rewrite Hfail.
Qed.

(** C8, on configured tags that are not a [str], as a mapping of tag names
    to values is.  Once the queue has been created, the log line 41 adds
    the tags to a [str] and [create_queue] ends there with a [TypeError]:
    the tagging call of line 42 is not made, the tags are not applied, and
    the queue is not returned. *)
Theorem create_queue_mapping_tags (region : string) (conn : Client)
    (queue_metadata Tags : pyval) :
  CONFIG G !! "region" = Some (PStr region) ->
  boto3_client aws "sqs" (PStr region) = Ret conn ->
  sqs_create_queue aws (QUEUE_NAME G) [("VisibilityTimeout", "3600")] =
    Ret queue_metadata ->
  CONFIG G !! "queue_tags" = Some Tags ->
  Py.as_str Tags = None ->
  create_queue =
  ([Log (("Connecting to sqs " ++ QUEUE_NAME G ++ "on region ") ++ region);
    NewClient "sqs" (PStr region);
    CreateQueue (QUEUE_NAME G) [("VisibilityTimeout", "3600")]],
   Raise TypeError).
Proof.
  intros Hregion Hconn Hcreate Htags Hstr. run_create_queue.
  rewrite Hregion. cbn. rewrite Hconn. cbn. rewrite Hcreate, Htags. cbn.
  by rewrite Hstr.
Qed.

(** ** The signal *)

(** Whatever the event holds, a completion call that is made carries the
    result ['CONTINUE']. *)
Lemma complete_lifecycle_action_result (message hook group token instance : pyval)
    (result : string) :
  In (CompleteLifecycleAction hook group token result instance)
     (trace (complete_lifecycle_action message)) ->
  result = "CONTINUE" /\
  Py.getitem message "LifecycleHookName" = Ret hook /\
  Py.getitem message "AutoScalingGroupName" = Ret group /\
  Py.getitem message "LifecycleActionToken" = Ret token /\
  Py.getitem message "EC2InstanceId" = Ret instance.
Proof.
  unfold complete_lifecycle_action, log_field, new_client, logging_info_add,
    Py.str_add, Py.lookup_key, trace.
  cbn. repeat branch; intros Hin;
    repeat (destruct Hin as [Hin|Hin]; try discriminate Hin);
    try contradiction; simplify_eq; done.
Qed.

(** C6.  On a lifecycle event that has the four fields,
    [complete_lifecycle_action] logs four lines, makes a client and then
    makes one call: the completion, with the result ['CONTINUE'] and with
    the hook name, the group name, the token and the instance id of the
    event; what the call answers is what the function answers. *)
Theorem complete_lifecycle_action_call (message : gmap string pyval)
    (hook group instance : string) (token region : pyval) (conn : Client) :
  message !! "LifecycleHookName" = Some (PStr hook) ->
  message !! "AutoScalingGroupName" = Some (PStr group) ->
  message !! "LifecycleActionToken" = Some token ->
  message !! "EC2InstanceId" = Some (PStr instance) ->
  CONFIG G !! "region" = Some region ->
  boto3_client aws "autoscaling" region = Ret conn ->
  complete_lifecycle_action (PDict message) =
  ([Log "Completing lifecycle action";
    Log ("LifecycleHookName: " ++ hook);
    Log ("AutoScalingGroupName: " ++ group);
    Log "LifecycleActionResult: CONTINUE";
    Log ("InstanceId: " ++ instance);
    NewClient "autoscaling" region;
    CompleteLifecycleAction (PStr hook) (PStr group) token "CONTINUE" (PStr instance)],
   autoscaling_complete_lifecycle_action aws
     (PStr hook) (PStr group) token "CONTINUE" (PStr instance)).
Proof.
  intros Hhook Hgroup Htoken Hinstance Hregion Hconn.
  unfold complete_lifecycle_action, log_field, new_client, logging_info_add,
    Py.str_add, Py.lookup_key.
  cbn. rewrite Hhook. cbn. rewrite Hgroup. cbn. rewrite Hinstance. cbn.
  rewrite Hregion. cbn. rewrite Hconn. cbn. rewrite Htoken. cbn.
  by destruct (autoscaling_complete_lifecycle_action aws _ _ _ _ _).
Qed.

(** ** Further properties of the filter and of the poll *)

(** X1.  No call of [should_terminate] returns.  When the envelope does not
    decode, the error of the decoder comes out and nothing is logged; when
    it decodes to a [str], line 92 logs it and line 93, which subscripts it
    with ['Message'], raises [TypeError]; when it decodes to anything else,
    the log line 92 raises [TypeError]. *)
Theorem should_terminate_outcomes (msg : Message) :
  match json_loads (body msg) with
  | Raise e => should_terminate msg = ([], Raise e)
  | Ret (PStr s) =>
      should_terminate msg = ([Log ("Message raw:" ++ s)], Raise TypeError)
  | Ret _ => should_terminate msg = ([], Raise TypeError)
  end.
Proof.
  unfold should_terminate.
  by destruct (json_loads (body msg)) as [[]|].
Qed.

(** X2.  The test of line 97 holds of a parsed body exactly when the body
    is a [dict] whose ['LifecycleTransition'] is the terminating transition
    and whose ['EC2InstanceId'] is the id of this instance: no [str],
    [list] or other value passes it. *)
Theorem is_our_termination_exact (message : pyval) :
  is_our_termination message = Ret true <->
  exists d : gmap string pyval,
    message = PDict d /\
    d !! "LifecycleTransition" = Some (PStr termination_msg) /\
    d !! "EC2InstanceId" = Some (PStr (INSTANCE_ID G)).
Proof.
  split.
  - destruct message as [| | | |s|l|d]; try discriminate.
    + unfold is_our_termination. cbn.
      by destruct (Py.substring_of "LifecycleTransition" s).
    + unfold is_our_termination. cbn.
      by destruct (existsb _ l).
    + intros Htrue. exists d. split; [done|]. by apply is_our_termination_true.
  - intros (d & -> & Ht & Hi). by apply is_our_termination_true.
Qed.

(** X3.  A [dict] whose transition is absent or is not the terminating one
    is no match, and ['EC2InstanceId'] is not read: its absence raises
    nothing there. *)
Theorem is_our_termination_other_transition (message : gmap string pyval) :
  message !! "LifecycleTransition" <> Some (PStr termination_msg) ->
  is_our_termination (PDict message) = Ret false.
Proof.
  intros Hother. rewrite is_our_termination_dict.
  destruct (message !! "LifecycleTransition") as [transition|]; [|done].
  destruct (Py.eq_str transition termination_msg) eqn:Ht; [|done].
  apply eq_str_spec in Ht as ->. done.
Qed.

(** X4.  A terminating notice for another instance, or with an id that is
    not a [str], is no match. *)
Theorem is_our_termination_other_instance (message : gmap string pyval)
    (instance : pyval) :
  message !! "EC2InstanceId" = Some instance ->
  instance <> PStr (INSTANCE_ID G) ->
  is_our_termination (PDict message) = Ret false.
Proof.
  intros Hi Hother. rewrite is_our_termination_dict, Hi.
  destruct (message !! "LifecycleTransition") as [transition|]; [|done].
  destruct (Py.eq_str transition termination_msg); [|done].
  destruct (Py.eq_str instance (INSTANCE_ID G)) eqn:He; [|done].
  by apply eq_str_spec in He.
Qed.

(** X5.  No call of [poll_queue] asks for a message to be deleted, and the
    only value a call returns is [False], on an empty batch: a call never
    returns a lifecycle event. *)
Theorem poll_queue_never_deletes (conn : Client) (queue : Queue) :
  deletions (trace (poll_queue conn queue)) = [] /\
  forall v : pyval,
    outcome (poll_queue conn queue) = Ret v ->
    v = PBool false /\ queue_receive_messages aws queue = Ret [].
Proof.
  unfold poll_queue.
  destruct (queue_receive_messages aws queue) as [[|message rest]|e]; cbn.
  - split; [done|]. by intros v [= <-].
  - split; [done|]. discriminate.
  - split; [done|]. discriminate.
Qed.

(** ** Further properties of the teardown and of the signals *)

(** X6.  [clean_up_sns] asks for the queue to be deleted and, only when
    that has succeeded, for the subscription to be removed; it makes no
    other call.  A failed deletion ends it with the subscription left in
    place, and after a deletion its answer is that of the unsubscribe
    call. *)
Theorem clean_up_sns_requests (sns_conn : Client) (sns_arn : pyval) (queue : Queue) :
  requests (trace (clean_up_sns sns_conn sns_arn queue)) =
    DeleteQueue queue ::
    match queue_delete aws queue with
    | Ret _ => [Unsubscribe sns_arn]
    | Raise _ => []
    end /\
  outcome (clean_up_sns sns_conn sns_arn queue) =
    match queue_delete aws queue with
    | Ret _ => sns_unsubscribe aws sns_arn
    | Raise e => Raise e
    end.
Proof.
  unfold clean_up_sns. cbn.
  destruct (queue_delete aws queue); cbn; [|done].
  by destruct (sns_unsubscribe aws sns_arn).
Qed.

(** X7.  On a lifecycle event whose four fields are [str],
    [record_lifecycle_action_heartbeat] logs five lines, makes a client and
    then makes one call: the heartbeat, with the hook name, the group name,
    the token and the instance id of the event; what the call answers is
    what the function answers. *)
Theorem record_lifecycle_action_heartbeat_call (message : gmap string pyval)
    (hook group token instance : string) (region : pyval) (conn : Client) :
  message !! "LifecycleHookName" = Some (PStr hook) ->
  message !! "AutoScalingGroupName" = Some (PStr group) ->
  message !! "LifecycleActionToken" = Some (PStr token) ->
  message !! "EC2InstanceId" = Some (PStr instance) ->
  CONFIG G !! "region" = Some region ->
  boto3_client aws "autoscaling" region = Ret conn ->
  record_lifecycle_action_heartbeat (PDict message) =
  ([Log "Recording lifecycle heartbeat";
    Log ("LifecycleHookName: " ++ hook);
    Log ("AutoScalingGroupName: " ++ group);
    Log ("LifecycleActionToken: " ++ token);
    Log ("InstanceId: " ++ instance);
    NewClient "autoscaling" region;
    RecordLifecycleActionHeartbeat (PStr hook) (PStr group) (PStr token) (PStr instance)],
   autoscaling_record_lifecycle_action_heartbeat aws
     (PStr hook) (PStr group) (PStr token) (PStr instance)).
Proof.
  intros Hhook Hgroup Htoken Hinstance Hregion Hconn.
  unfold record_lifecycle_action_heartbeat, log_field, new_client,
    logging_info_add, Py.str_add, Py.lookup_key.
  cbn. rewrite Hhook. cbn. rewrite Hgroup. cbn. rewrite Htoken. cbn.
  rewrite Hinstance. cbn. rewrite Hregion. cbn. rewrite Hconn. cbn.
  by destruct (autoscaling_record_lifecycle_action_heartbeat aws _ _ _ _).
Qed.

(** X8.  The heartbeat logs the token, the completion does not: on an
    event whose token is not a [str], [record_lifecycle_action_heartbeat]
    raises [TypeError] at its log line 116 and sends nothing. *)
Theorem record_lifecycle_action_heartbeat_token (message : gmap string pyval)
    (hook group : string) (token : pyval) :
  message !! "LifecycleHookName" = Some (PStr hook) ->
  message !! "AutoScalingGroupName" = Some (PStr group) ->
  message !! "LifecycleActionToken" = Some token ->
  Py.as_str token = None ->
  record_lifecycle_action_heartbeat (PDict message) =
  ([Log "Recording lifecycle heartbeat";
    Log ("LifecycleHookName: " ++ hook);
    Log ("AutoScalingGroupName: " ++ group)],
   Raise TypeError).
Proof.
  intros Hhook Hgroup Htoken Hstr.
  unfold record_lifecycle_action_heartbeat, log_field, logging_info_add, Py.str_add.
  cbn. rewrite Hhook. cbn. rewrite Hgroup. cbn. rewrite Htoken. cbn.
  by rewrite Hstr.
Qed.

(** X9.  A heartbeat is sent only for an event that is a [dict] with the
    four fields, all of them [str], once the region is configured and the
    client is there; the call carries those four fields. *)
Theorem record_lifecycle_action_heartbeat_sent (message hook group token instance : pyval) :
  In (RecordLifecycleActionHeartbeat hook group token instance)
     (trace (record_lifecycle_action_heartbeat message)) ->
  exists (d : gmap string pyval) (h g t i : string) (region : pyval) (conn : Client),
    message = PDict d /\
    hook = PStr h /\ group = PStr g /\ token = PStr t /\ instance = PStr i /\
    d !! "LifecycleHookName" = Some hook /\
    d !! "AutoScalingGroupName" = Some group /\
    d !! "LifecycleActionToken" = Some token /\
    d !! "EC2InstanceId" = Some instance /\
    CONFIG G !! "region" = Some region /\
    boto3_client aws "autoscaling" region = Ret conn.
Proof.
  unfold record_lifecycle_action_heartbeat, log_field, new_client,
    logging_info_add, Py.str_add, Py.lookup_key, trace.
  destruct message as [| | | | | |d]; cbn; try (by intros [?|[]]).
  repeat branch; intros Hin;
    repeat (destruct Hin as [Hin|Hin]; try discriminate Hin);
    try contradiction; simplify_eq.
  all: repeat match goal with
         | H : Py.as_str ?v = Some _ |- _ =>
             destruct v; try discriminate H; cbn in H; simplify_eq
         end.
  all: by eexists _, _, _, _, _, _, _.
Qed.

(** X10.  A completion is sent only for an event that is a [dict] with the
    four fields, of which the hook name, the group name and the instance
    id are [str], once the region is configured and the client is there;
    the call carries those four fields and the result ['CONTINUE']. *)
Theorem complete_lifecycle_action_sent (message hook group token instance : pyval)
    (result : string) :
  In (CompleteLifecycleAction hook group token result instance)
     (trace (complete_lifecycle_action message)) ->
  exists (d : gmap string pyval) (h g i : string) (region : pyval) (conn : Client),
    message = PDict d /\
    hook = PStr h /\ group = PStr g /\ instance = PStr i /\
    result = "CONTINUE" /\
    d !! "LifecycleHookName" = Some hook /\
    d !! "AutoScalingGroupName" = Some group /\
    d !! "LifecycleActionToken" = Some token /\
    d !! "EC2InstanceId" = Some instance /\
    CONFIG G !! "region" = Some region /\
    boto3_client aws "autoscaling" region = Ret conn.
Proof.
  unfold complete_lifecycle_action, log_field, new_client,
    logging_info_add, Py.str_add, Py.lookup_key, trace.
  destruct message as [| | | | | |d]; cbn; try (by intros [?|[]]).
  repeat branch; intros Hin;
    repeat (destruct Hin as [Hin|Hin]; try discriminate Hin);
    try contradiction; simplify_eq.
  all: repeat match goal with
         | H : Py.as_str ?v = Some _ |- _ =>
             destruct v; try discriminate H; cbn in H; simplify_eq
         end.
  all: by eexists _, _, _, _, _, _.
Qed.

(** ** Further properties of the provisioning *)

(** X11.  No call of [create_queue] returns a queue: whatever the
    configuration holds and the services answer, the call ends in an
    exception. *)
Theorem create_queue_never_returns (r : Client * Queue) :
  outcome create_queue <> Ret r.
Proof. destruct create_queue_raises as [e He]. congruence. Qed.

(** X12.  When no tags are configured and every service call succeeds,
    [create_queue] has the queue created and then raises [TypeError] at
    the log line 47: the queue exists and the caller does not get it. *)
Theorem create_queue_leaves_queue (region : string) (conn : Client)
    (queue_metadata : gmap string pyval) (QueueUrl : pyval) :
  CONFIG G !! "region" = Some (PStr region) ->
  boto3_client aws "sqs" (PStr region) = Ret conn ->
  sqs_create_queue aws (QUEUE_NAME G) [("VisibilityTimeout", "3600")] =
    Ret (PDict queue_metadata) ->
  queue_metadata !! "QueueUrl" = Some QueueUrl ->
  CONFIG G !! "queue_tags" = None ->
  boto3_resource aws "sqs" (PStr region) = Ret tt ->
  create_queue =
  ([Log (("Connecting to sqs " ++ QUEUE_NAME G ++ "on region ") ++ region);
    NewClient "sqs" (PStr region);
    CreateQueue (QUEUE_NAME G) [("VisibilityTimeout", "3600")];
    NewResource "sqs" (PStr region)],
   Raise TypeError).
Proof.
  intros Hregion Hconn Hcreate Hurl Htags Hresource. run_create_queue.
  rewrite Hregion. cbn. rewrite Hconn. cbn. rewrite Hcreate, Htags. cbn.
  rewrite Hresource. cbn. by rewrite Hurl.
Qed.

(** X13.  The creation of the queue is asked for only when the region is
    configured as a [str] and the client has been made, and for no other
    queue than [QUEUE_NAME] with a visibility timeout of 3600 seconds. *)
Theorem create_queue_created (QueueName : string) (Attributes : list (string * string)) :
  In (CreateQueue QueueName Attributes) (trace create_queue) ->
  QueueName = QUEUE_NAME G /\
  Attributes = [("VisibilityTimeout", "3600")] /\
  exists (region : string) (conn : Client),
    CONFIG G !! "region" = Some (PStr region) /\
    boto3_client aws "sqs" (PStr region) = Ret conn.
Proof.
  run_create_queue.
  destruct (CONFIG G !! "queue_tags") as [tags|]; cbn;
    repeat branch; intros Hin;
    repeat (destruct Hin as [Hin|Hin]; try discriminate Hin);
    try contradiction; simplify_eq.
  all: repeat match goal with
         | H : Py.as_str ?v = Some _ |- _ =>
             destruct v; try discriminate H; cbn in H; simplify_eq
         end.
  all: repeat split; eauto.
Qed.

(** X14.  The tagging call is made only with tags that are a [str], after
    the queue has been created, and for the URL the creation answered:
    configured tags that are a mapping never reach the service. *)
Theorem create_queue_tagged (QueueUrl Tags : pyval) :
  In (TagQueue QueueUrl Tags) (trace create_queue) ->
  exists (tags : string) (queue_metadata : pyval),
    Tags = PStr tags /\
    CONFIG G !! "queue_tags" = Some (PStr tags) /\
    sqs_create_queue aws (QUEUE_NAME G) [("VisibilityTimeout", "3600")] =
      Ret queue_metadata /\
    Py.getitem queue_metadata "QueueUrl" = Ret QueueUrl.
Proof.
  run_create_queue.
  destruct (CONFIG G !! "queue_tags") as [tags|]; cbn;
    repeat branch; intros Hin;
    repeat (destruct Hin as [Hin|Hin]; try discriminate Hin);
    try contradiction; simplify_eq.
  all: repeat match goal with
         | H : Py.as_str ?v = Some _ |- _ =>
             destruct v; try discriminate H; cbn in H; simplify_eq
         end.
  all: by eexists _, _.
Qed.

(** ** Further properties of the policy *)

Lemma sid_is_getitem (statement sid : pyval) (statement_id : string) :
  Py.getitem statement "Sid" = Ret sid ->
  sid_is statement_id statement = Py.eq_str sid statement_id.
Proof. intros Hsid. unfold sid_is. by rewrite Hsid. Qed.

(** X15.  The loop of lines 67-69 reads ['Sid'] of every statement, also
    after it has found the identifier: it ends with a result exactly when
    every statement has a ['Sid'], and the result says whether one of them
    is the identifier. *)
Theorem sid_exists_exact (statements : list pyval) (statement_id : string) (found : bool) :
  sid_exists statements statement_id false = Ret found <->
  Forall has_sid statements /\
  found = existsb (sid_is statement_id) statements.
Proof.
  assert (Hgen : forall b,
    sid_exists statements statement_id b = Ret found <->
    Forall has_sid statements /\
    found = b || existsb (sid_is statement_id) statements); [|apply Hgen].
  induction statements as [|y l IH]; intros b; cbn.
  - rewrite orb_false_r. split.
    + by intros [= ->].
    + by intros [_ ->].
  - destruct (Py.getitem y "Sid") as [sid|e] eqn:Hsid.
    + rewrite IH, (sid_is_getitem y sid statement_id Hsid).
      split.
      * intros [Hall ->]. split; [constructor; [by exists sid|done]|].
        by destruct (Py.eq_str sid statement_id), b.
      * intros [Hall ->]. split; [by inversion Hall|].
        by destruct (Py.eq_str sid statement_id), b.
    + split; [discriminate|]. intros [Hall _]. inversion Hall as [|? ? [sid Hy] ?].
      congruence.
Qed.

(** What lines 62-77 make of a [dict] when they end with a policy. *)
Lemma authorize_inv (d : gmap string pyval) (sid : string) (statement policy : pyval) :
  authorize (PDict d) sid statement = Ret policy ->
  let d1 := if bool_decide (is_Some (d !! "Version")) then d
            else <["Version" := PStr "2008-10-17"]> d in
  let d2 := if bool_decide (is_Some (d1 !! "Statement")) then d1
            else <["Statement" := PList []]> d1 in
  exists l : list pyval,
    d2 !! "Statement" = Some (PList l) /\
    ((sid_exists l sid false = Ret true /\ policy = PDict d2) \/
     (sid_exists l sid false = Ret false /\
      policy = PDict (<["Statement" := PList (l ++ [statement])%list]> d2))).
Proof.
  intros Hret d1 d2. revert Hret. unfold authorize. cbn.
  replace (if bool_decide (is_Some (d !! "Version")) then Ret (PDict d)
           else Ret (PDict (<["Version" := PStr "2008-10-17"]> d)))
    with (Ret (PDict d1)) by (subst d1; by case_bool_decide).
  cbn.
  replace (if bool_decide (is_Some (d1 !! "Statement")) then Ret (PDict d1)
           else Ret (PDict (<["Statement" := PList []]> d1)))
    with (Ret (PDict d2)) by (subst d2; by case_bool_decide).
  cbn.
  assert (Hs2 : is_Some (d2 !! "Statement")).
  { subst d2. case_bool_decide; [done|]. rewrite lookup_insert_eq. eauto. }
  clearbody d2. destruct Hs2 as [statements Hs2]. rewrite Hs2.
  destruct statements as [| | | |str|l|ds]; cbn; try discriminate.
  - rewrite <- (map_map (fun c => String c EmptyString) PStr), sid_exists_strings.
    by destruct (map _ _).
  - destruct (sid_exists l sid false) as [[]|] eqn:Hl; [| |discriminate].
    + intros [= <-]. exists l. split; [done|]. by left.
    + intros [= <-]. exists l. split; [done|]. by right.
  - rewrite <- (map_map fst PStr), sid_exists_strings.
    by destruct (map _ _).
Qed.

(** X16.  Lines 62-77 lose nothing of a policy: every entry other than
    ['Statement'] is kept, ['Version'] included when there is one, no
    entry other than ['Version'] and ['Statement'] is added, and the
    statements that were there are kept, in their order, with at most the
    new statement after them. *)
Theorem authorize_keeps (d : gmap string pyval) (sid : string)
    (statement policy : pyval) :
  authorize (PDict d) sid statement = Ret policy ->
  exists d' : gmap string pyval,
    policy = PDict d' /\
    (forall (k : string) (v : pyval),
       d !! k = Some v -> k <> "Statement" -> d' !! k = Some v) /\
    (forall k : string, k <> "Version" -> k <> "Statement" -> d' !! k = d !! k) /\
    (forall l : list pyval,
       d !! "Statement" = Some (PList l) ->
       d' !! "Statement" = Some (PList l) \/
       d' !! "Statement" = Some (PList (l ++ [statement])%list)).
Proof.
  intros Hret. destruct (authorize_inv _ _ _ _ Hret) as (l & Hs & Hcases).
  set (d1 := if bool_decide (is_Some (d !! "Version")) then d
             else <["Version" := PStr "2008-10-17"]> d) in *.
  set (d2 := if bool_decide (is_Some (d1 !! "Statement")) then d1
             else <["Statement" := PList []]> d1) in *.
  assert (H1 : forall k v, d !! k = Some v -> d1 !! k = Some v).
  { intros k v Hk. subst d1. case_bool_decide as Hv; [done|].
    rewrite lookup_insert_ne; [done|]. intros <-. apply Hv. by rewrite Hk. }
  assert (H1' : forall k, k <> "Version" -> d1 !! k = d !! k).
  { intros k Hk. subst d1. case_bool_decide; [done|]. by rewrite lookup_insert_ne. }
  assert (H2 : forall k v, d1 !! k = Some v -> d2 !! k = Some v).
  { intros k v Hk. subst d2. case_bool_decide as Hv; [done|].
    rewrite lookup_insert_ne; [done|]. intros <-. apply Hv. by rewrite Hk. }
  assert (H2' : forall k, k <> "Statement" -> d2 !! k = d1 !! k).
  { intros k Hk. subst d2. case_bool_decide; [done|]. by rewrite lookup_insert_ne. }
  destruct Hcases as [[_ ->]|[_ ->]].
  - exists d2. split; [done|]. split; [by eauto|]. split.
    + intros k Hv Hst. by rewrite H2', H1'.
    + intros l' Hl'. left. by apply H2, H1.
  - eexists. split; [done|]. split; [|split].
    + intros k v Hk Hst. rewrite lookup_insert_ne by done. by eauto.
    + intros k Hv Hst. rewrite lookup_insert_ne by done. by rewrite H2', H1'.
    + intros l' Hl'. right. rewrite lookup_insert_eq.
      assert (d2 !! "Statement" = Some (PList l')) as Hl2 by by apply H2, H1.
      congruence.
Qed.

(** X17.  On a policy whose statements all have a ['Sid'], lines 62-77
    append the new statement exactly when none of them has the identifier,
    and keep the list as it is otherwise. *)
Theorem authorize_appends_once (d : gmap string pyval) (l : list pyval)
    (sid : string) (statement : pyval) :
  d !! "Statement" = Some (PList l) ->
  Forall has_sid l ->
  exists d' : gmap string pyval,
    authorize (PDict d) sid statement = Ret (PDict d') /\
    d' !! "Statement" =
      Some (PList (if existsb (sid_is sid) l then l else (l ++ [statement])%list)).
Proof.
  intros Hs Hall.
  assert (Hl : sid_exists l sid false = Ret (existsb (sid_is sid) l))
    by by apply sid_exists_exact.
  set (d1 := if bool_decide (is_Some (d !! "Version")) then d
             else <["Version" := PStr "2008-10-17"]> d).
  assert (Hs1 : d1 !! "Statement" = Some (PList l)).
  { subst d1. case_bool_decide; [done|]. by rewrite lookup_insert_ne. }
  unfold authorize. cbn.
  replace (if bool_decide (is_Some (d !! "Version")) then Ret (PDict d)
           else Ret (PDict (<["Version" := PStr "2008-10-17"]> d)))
    with (Ret (PDict d1)) by (subst d1; by case_bool_decide).
  cbn. rewrite bool_decide_eq_true_2 by (by rewrite Hs1). cbn.
  rewrite Hs1. cbn. rewrite Hl.
  destruct (existsb (sid_is sid) l); cbn.
  - by exists d1.
  - eexists. split; [done|]. by rewrite lookup_insert_eq.
Qed.

(** X18.  Lines 62-77 run twice are lines 62-77 run once: the policy they
    have made holds a statement with the identifier, and they return it as
    it is when they are given it again. *)
Theorem authorize_twice (d : gmap string pyval) (sid : string)
    (statement policy : pyval) :
  Py.getitem statement "Sid" = Ret (PStr sid) ->
  authorize (PDict d) sid statement = Ret policy ->
  authorize policy sid statement = Ret policy /\
  exists (d' : gmap string pyval) (l : list pyval),
    policy = PDict d' /\ d' !! "Statement" = Some (PList l) /\
    existsb (sid_is sid) l = true.
Proof.
  intros Hsid Hret. split; [by apply authorize_idempotent with d|].
  destruct (authorize_result d sid statement policy Hsid Hret)
    as (d' & l & -> & _ & Hs & Hl).
  exists d', l. split; [done|]. split; [done|].
  apply sid_exists_exact in Hl as [_ <-]. done.
Qed.

(** X19.  Lines 62-77 end with a policy only when ['Statement'] is absent
    or is a list whose statements all have a ['Sid']: a policy whose
    ['Statement'] is a single object, or that holds a statement without
    ['Sid'], makes them raise. *)
Theorem authorize_needs_sids (d : gmap string pyval) (sid : string)
    (statement policy : pyval) :
  authorize (PDict d) sid statement = Ret policy ->
  d !! "Statement" = None \/
  exists l : list pyval, d !! "Statement" = Some (PList l) /\ Forall has_sid l.
Proof.
  intros Hret. destruct (authorize_inv _ _ _ _ Hret) as (l & Hs & Hcases).
  set (d1 := if bool_decide (is_Some (d !! "Version")) then d
             else <["Version" := PStr "2008-10-17"]> d) in *.
  assert (H1 : d1 !! "Statement" = d !! "Statement").
  { unfold d1. destruct (bool_decide (is_Some (d !! "Version"))); [done|].
    by rewrite lookup_insert_ne. }
  assert (Hall : Forall has_sid l).
  { destruct Hcases as [[Hl _]|[Hl _]]; by apply sid_exists_exact in Hl as [? _]. }
  clear Hcases. revert Hs.
  destruct (bool_decide (is_Some (d1 !! "Statement"))) eqn:Hst.
  - intros Hs. right. exists l. by rewrite <- H1.
  - intros _. left. rewrite <- H1. apply bool_decide_eq_false in Hst.
    destruct (d1 !! "Statement"); [|done]. exfalso. apply Hst. eauto.
Qed.

(** X20.  The queue [create_queue] asks for on a module imported with a
    [str] prefix is the one named by the prefix, a hyphen and the instance
    id. *)
Theorem create_queue_after_import (py_str : pyval -> string)
    (config : gmap string pyval) (instance_id prefix region : string) (conn : Client) :
  import_queue py_str config instance_id = Ret G ->
  config !! "sqs_prefix" = Some (PStr prefix) ->
  config !! "region" = Some (PStr region) ->
  boto3_client aws "sqs" (PStr region) = Ret conn ->
  creations (trace create_queue) =
  [(prefix ++ "-" ++ instance_id, [("VisibilityTimeout", "3600")])].
Proof.
  unfold import_queue, Py.lookup_key, Py.getitem.
  intros Himport Hprefix Hregion Hconn. rewrite Hprefix in Himport.
  injection Himport as HG.
  assert (HC : CONFIG G = config) by by rewrite <- HG.
  assert (HQ : QUEUE_NAME G = prefix ++ "-" ++ instance_id) by by rewrite <- HG.
  run_create_queue.
  rewrite HC, HQ, Hregion. cbn. rewrite Hconn. cbn.
  destruct (config !! "queue_tags") as [tags|]; cbn;
    repeat branch; auto.
Qed.

End Queue.


(** ** The queue name *)

(** C5.  The queue name is the configured prefix, a hyphen and the instance
    id, in this order; with the prefix ["myapp"] on the instance ["i-0123"]
    it is ["myapp-i-0123"]. *)
Theorem queue_name_derivation (py_str : pyval -> string)
    (config : gmap string pyval) (prefix instance_id : string) :
  (exists G : globals,
     import_queue py_str (<["sqs_prefix" := PStr prefix]> config) instance_id = Ret G /\
     QUEUE_NAME G = prefix ++ "-" ++ instance_id) /\
  (exists G : globals,
     import_queue py_str (<["sqs_prefix" := PStr "myapp"]> config) "i-0123" = Ret G /\
     QUEUE_NAME G = "myapp-i-0123").
Proof.
  unfold import_queue, Py.lookup_key, Py.getitem.
  rewrite !lookup_insert_eq. split; eexists; split; reflexivity.
Qed.

(** ** The theorems at the inputs of [Demo] *)

Lemma demo_import (py_str : pyval -> string) :
  import_queue py_str Demo.config "i-0123" = Ret Demo.G.
Proof. reflexivity. Qed.

Lemma should_terminate_our_notice_witness :
  is_our_termination Demo.G (PDict Demo.event_of_ours) = Ret true /\
  should_terminate Json.loads Demo.G Demo.ours = ([], Raise TypeError).
Proof.
  apply (should_terminate_our_notice Json.loads Demo.G Demo.ours
           (Demo.envelope Demo.inner_of_ours) Demo.event_of_ours Demo.inner_of_ours);
    vm_compute; reflexivity.
Defined.

Lemma should_terminate_without_instance_id_witness :
  is_our_termination Demo.G (PDict Demo.event_of_anonymous) =
    Raise (KeyError "EC2InstanceId") /\
  should_terminate Json.loads Demo.G Demo.anonymous = ([], Raise TypeError).
Proof.
  apply (should_terminate_without_instance_id Json.loads Demo.G Demo.anonymous
           (Demo.envelope Demo.inner_of_anonymous) Demo.event_of_anonymous
           Demo.inner_of_anonymous);
    vm_compute; reflexivity.
Defined.

Lemma poll_queue_garbled_witness :
  should_terminate Json.loads Demo.G Demo.garbled = ([], Raise TypeError) /\
  outcome (poll_queue Json.loads (Demo.aws [Demo.garbled] (Ret tt)) Demo.G
             Demo.conn Demo.queue) = Raise TypeError /\
  deletions (trace (poll_queue Json.loads (Demo.aws [Demo.garbled] (Ret tt)) Demo.G
                      Demo.conn Demo.queue)) = [].
Proof.
  apply (poll_queue_garbled Json.loads (Demo.aws [Demo.garbled] (Ret tt)) Demo.G
           Demo.conn Demo.queue Demo.garbled [] (Demo.envelope "scale-down at noon")
           "scale-down at noon" ValueError);
    vm_compute; reflexivity.
Defined.

Lemma poll_queue_first_message_witness :
  poll_queue Json.loads (Demo.aws [] (Ret tt)) Demo.G Demo.conn Demo.queue =
    ([ReceiveMessages Demo.queue], Ret (PBool false)) /\
  poll_queue Json.loads (Demo.aws [Demo.ours] (Ret tt)) Demo.G Demo.conn Demo.queue =
    ([ReceiveMessages Demo.queue; Log "Polling queue for message"], Raise TypeError).
Proof.
  split.
  - apply (proj1 (poll_queue_first_message Json.loads (Demo.aws [] (Ret tt)) Demo.G
                    Demo.conn Demo.queue)).
    reflexivity.
  - apply (proj2 (poll_queue_first_message Json.loads (Demo.aws [Demo.ours] (Ret tt))
                    Demo.G Demo.conn Demo.queue) Demo.ours []).
    reflexivity.
Defined.

Lemma poll_queue_received_message_kept_witness :
  (~ In Demo.ours
       (deletions (trace (poll_queue Json.loads (Demo.aws [Demo.other; Demo.ours] (Ret tt))
                            Demo.G Demo.conn Demo.queue))) /\
   outcome (poll_queue Json.loads (Demo.aws [Demo.other; Demo.ours] (Ret tt))
              Demo.G Demo.conn Demo.queue) = Raise TypeError) /\
  (~ In Demo.ours
       (deletions (trace (poll_queue Json.loads (Demo.aws [Demo.ours] (Ret tt))
                            Demo.G Demo.conn Demo.queue))) /\
   outcome (poll_queue Json.loads (Demo.aws [Demo.ours] (Ret tt))
              Demo.G Demo.conn Demo.queue) = Raise TypeError).
Proof.
  split.
  - apply (poll_queue_received_message_kept Json.loads
             (Demo.aws [Demo.other; Demo.ours] (Ret tt)) Demo.G Demo.conn Demo.queue
             [Demo.other; Demo.ours] Demo.ours).
    + reflexivity.
    + right. left. reflexivity.
  - apply (poll_queue_received_message_kept Json.loads
             (Demo.aws [Demo.ours] (Ret tt)) Demo.G Demo.conn Demo.queue
             [Demo.ours] Demo.ours).
    + reflexivity.
    + left. reflexivity.
Defined.

Lemma create_queue_request_witness :
  creations (trace (create_queue (Demo.aws [] (Ret tt)) Demo.G)) =
  [("myapp-i-0123", [("VisibilityTimeout", "3600")])].
Proof.
  apply (create_queue_request (Demo.aws [] (Ret tt)) Demo.G "us-east-1"
           {| service := "sqs"; region_name := PStr "us-east-1" |});
    reflexivity.
Defined.

Lemma create_queue_mapping_tags_witness :
  create_queue (Demo.aws [] (Ret tt)) Demo.tagged_with_mapping =
  ([Log "Connecting to sqs myapp-i-0123on region us-east-1";
    NewClient "sqs" (PStr "us-east-1");
    CreateQueue "myapp-i-0123" [("VisibilityTimeout", "3600")]],
   Raise TypeError).
Proof.
  apply (create_queue_mapping_tags (Demo.aws [] (Ret tt)) Demo.tagged_with_mapping
           "us-east-1" {| service := "sqs"; region_name := PStr "us-east-1" |}
           (PDict {["QueueUrl" := Demo.queue_url]})
           (PDict {["team" := PStr "ops"]}));
    reflexivity.
Defined.

Lemma complete_lifecycle_action_call_witness :
  complete_lifecycle_action (Demo.aws [] (Ret tt)) Demo.G (PDict Demo.event_of_ours) =
  ([Log "Completing lifecycle action";
    Log "LifecycleHookName: drain";
    Log "AutoScalingGroupName: web";
    Log "LifecycleActionResult: CONTINUE";
    Log "InstanceId: i-0123";
    NewClient "autoscaling" (PStr "us-east-1");
    CompleteLifecycleAction (PStr "drain") (PStr "web") (PStr "token-1") "CONTINUE"
      (PStr "i-0123")],
   Ret tt).
Proof.
  apply (complete_lifecycle_action_call (Demo.aws [] (Ret tt)) Demo.G Demo.event_of_ours
           "drain" "web" "i-0123" (PStr "token-1") (PStr "us-east-1")
           {| service := "autoscaling"; region_name := PStr "us-east-1" |});
    reflexivity.
Defined.

(** ** Further properties of the queue name *)

Lemma append_cancel (x a b : string) : x ++ a = x ++ b -> a = b.
Proof. induction x as [|c x IH]; cbn; [done|]. intros [= H]. by apply IH. Qed.

(** X21.  For one configuration the import fails or succeeds whatever the
    instance id, it fails exactly when ['sqs_prefix'] is missing, and the
    queue names of two instances are the same only when their ids are. *)
Theorem queue_name_injective (py_str : pyval -> string)
    (config : gmap string pyval) (id1 id2 : string) :
  match import_queue py_str config id1, import_queue py_str config id2 with
  | Ret G1, Ret G2 =>
      is_Some (config !! "sqs_prefix") /\
      (QUEUE_NAME G1 = QUEUE_NAME G2 <-> id1 = id2)
  | Raise e1, Raise e2 =>
      config !! "sqs_prefix" = None /\
      e1 = KeyError "sqs_prefix" /\ e2 = KeyError "sqs_prefix"
  | _, _ => False
  end.
Proof.
  unfold import_queue, Py.lookup_key, Py.getitem.
  destruct (config !! "sqs_prefix") as [prefix|]; cbn; [|done].
  split; [by eauto|]. split.
  - intros H. apply append_cancel in H. by apply (append_cancel "-") in H.
  - by intros ->.
Qed.

(** ** The further properties at the inputs of [Demo] *)

Lemma is_our_termination_other_transition_witness :
  is_our_termination Demo.G (PDict Demo.event_of_launch) = Ret false.
Proof.
  apply (is_our_termination_other_transition Demo.G Demo.event_of_launch).
  vm_compute. discriminate.
Defined.

Lemma is_our_termination_other_instance_witness :
  is_our_termination Demo.G
    (PDict (<["EC2InstanceId" := PStr "i-9999"]> Demo.event_of_ours)) = Ret false.
Proof.
  apply (is_our_termination_other_instance Demo.G
           (<["EC2InstanceId" := PStr "i-9999"]> Demo.event_of_ours) (PStr "i-9999")).
  - vm_compute. reflexivity.
  - vm_compute. discriminate.
Defined.

Lemma poll_queue_never_deletes_witness :
  PBool false = PBool false /\
  queue_receive_messages (Demo.aws [] (Ret tt)) Demo.queue = Ret [].
Proof.
  apply (proj2 (poll_queue_never_deletes Json.loads (Demo.aws [] (Ret tt)) Demo.G
                  Demo.conn Demo.queue) (PBool false)).
  reflexivity.
Defined.

Lemma record_lifecycle_action_heartbeat_call_witness :
  record_lifecycle_action_heartbeat (Demo.aws [] (Ret tt)) Demo.G
    (PDict Demo.event_of_ours) =
  ([Log "Recording lifecycle heartbeat";
    Log "LifecycleHookName: drain";
    Log "AutoScalingGroupName: web";
    Log "LifecycleActionToken: token-1";
    Log "InstanceId: i-0123";
    NewClient "autoscaling" (PStr "us-east-1");
    RecordLifecycleActionHeartbeat (PStr "drain") (PStr "web") (PStr "token-1")
      (PStr "i-0123")],
   Ret tt).
Proof.
  apply (record_lifecycle_action_heartbeat_call (Demo.aws [] (Ret tt)) Demo.G
           Demo.event_of_ours "drain" "web" "token-1" "i-0123" (PStr "us-east-1")
           {| service := "autoscaling"; region_name := PStr "us-east-1" |});
    reflexivity.
Defined.

Lemma record_lifecycle_action_heartbeat_token_witness :
  record_lifecycle_action_heartbeat (Demo.aws [] (Ret tt)) Demo.G
    (PDict Demo.event_with_numeric_token) =
  ([Log "Recording lifecycle heartbeat";
    Log "LifecycleHookName: drain";
    Log "AutoScalingGroupName: web"],
   Raise TypeError).
Proof.
  apply (record_lifecycle_action_heartbeat_token (Demo.aws [] (Ret tt)) Demo.G
           Demo.event_with_numeric_token "drain" "web" (PInt 7));
    vm_compute; reflexivity.
Defined.

Lemma record_lifecycle_action_heartbeat_sent_witness :
  exists (d : gmap string pyval) (h g t i : string) (region : pyval) (conn : Client),
    PDict Demo.event_of_ours = PDict d /\
    PStr "drain" = PStr h /\ PStr "web" = PStr g /\
    PStr "token-1" = PStr t /\ PStr "i-0123" = PStr i /\
    d !! "LifecycleHookName" = Some (PStr "drain") /\
    d !! "AutoScalingGroupName" = Some (PStr "web") /\
    d !! "LifecycleActionToken" = Some (PStr "token-1") /\
    d !! "EC2InstanceId" = Some (PStr "i-0123") /\
    CONFIG Demo.G !! "region" = Some region /\
    boto3_client (Demo.aws [] (Ret tt)) "autoscaling" region = Ret conn.
Proof.
  apply (record_lifecycle_action_heartbeat_sent (Demo.aws [] (Ret tt)) Demo.G
           (PDict Demo.event_of_ours)
           (PStr "drain") (PStr "web") (PStr "token-1") (PStr "i-0123")).
  vm_compute. tauto.
Defined.

Lemma complete_lifecycle_action_sent_witness :
  exists (d : gmap string pyval) (h g i : string) (region : pyval) (conn : Client),
    PDict Demo.event_with_numeric_token = PDict d /\
    PStr "drain" = PStr h /\ PStr "web" = PStr g /\ PStr "i-0123" = PStr i /\
    "CONTINUE" = "CONTINUE" /\
    d !! "LifecycleHookName" = Some (PStr "drain") /\
    d !! "AutoScalingGroupName" = Some (PStr "web") /\
    d !! "LifecycleActionToken" = Some (PInt 7) /\
    d !! "EC2InstanceId" = Some (PStr "i-0123") /\
    CONFIG Demo.G !! "region" = Some region /\
    boto3_client (Demo.aws [] (Ret tt)) "autoscaling" region = Ret conn.
Proof.
  apply (complete_lifecycle_action_sent (Demo.aws [] (Ret tt)) Demo.G
           (PDict Demo.event_with_numeric_token)
           (PStr "drain") (PStr "web") (PInt 7) (PStr "i-0123") "CONTINUE").
  vm_compute. tauto.
Defined.

Lemma create_queue_leaves_queue_witness :
  create_queue (Demo.aws [] (Ret tt)) Demo.G =
  ([Log "Connecting to sqs myapp-i-0123on region us-east-1";
    NewClient "sqs" (PStr "us-east-1");
    CreateQueue "myapp-i-0123" [("VisibilityTimeout", "3600")];
    NewResource "sqs" (PStr "us-east-1")],
   Raise TypeError).
Proof.
  apply (create_queue_leaves_queue (Demo.aws [] (Ret tt)) Demo.G "us-east-1"
           {| service := "sqs"; region_name := PStr "us-east-1" |}
           {["QueueUrl" := Demo.queue_url]} Demo.queue_url);
    reflexivity.
Defined.

Lemma create_queue_created_witness :
  "myapp-i-0123" = QUEUE_NAME Demo.G /\
  [("VisibilityTimeout", "3600")] = [("VisibilityTimeout", "3600")] /\
  exists (region : string) (conn : Client),
    CONFIG Demo.G !! "region" = Some (PStr region) /\
    boto3_client (Demo.aws [] (Ret tt)) "sqs" (PStr region) = Ret conn.
Proof.
  apply (create_queue_created (Demo.aws [] (Ret tt)) Demo.G "myapp-i-0123"
           [("VisibilityTimeout", "3600")]).
  vm_compute. tauto.
Defined.

Lemma create_queue_tagged_witness :
  exists (tags : string) (queue_metadata : pyval),
    PStr "team=ops" = PStr tags /\
    CONFIG Demo.tagged !! "queue_tags" = Some (PStr tags) /\
    sqs_create_queue (Demo.aws [] (Ret tt)) (QUEUE_NAME Demo.tagged)
      [("VisibilityTimeout", "3600")] = Ret queue_metadata /\
    Py.getitem queue_metadata "QueueUrl" = Ret Demo.queue_url.
Proof.
  apply (create_queue_tagged (Demo.aws [] (Ret tt)) Demo.tagged Demo.queue_url
           (PStr "team=ops")).
  vm_compute. tauto.
Defined.

Lemma create_queue_after_import_witness :
  creations (trace (create_queue (Demo.aws [] (Ret tt)) Demo.G)) =
  [("myapp" ++ "-" ++ "i-0123", [("VisibilityTimeout", "3600")])].
Proof.
  apply (create_queue_after_import (Demo.aws [] (Ret tt)) Demo.G
           (fun _ => EmptyString) Demo.config "i-0123" "myapp" "us-east-1"
           {| service := "sqs"; region_name := PStr "us-east-1" |});
    reflexivity.
Defined.

Lemma authorize_keeps_witness :
  exists d' : gmap string pyval,
    PDict (<["Statement" := PList [Demo.older_statement; Demo.our_statement]]> Demo.policy) =
      PDict d' /\
    (forall (k : string) (v : pyval),
       Demo.policy !! k = Some v -> k <> "Statement" -> d' !! k = Some v) /\
    (forall k : string,
       k <> "Version" -> k <> "Statement" -> d' !! k = Demo.policy !! k) /\
    (forall l : list pyval,
       Demo.policy !! "Statement" = Some (PList l) ->
       d' !! "Statement" = Some (PList l) \/
       d' !! "Statement" = Some (PList (l ++ [Demo.our_statement])%list)).
Proof.
  apply (authorize_keeps Demo.policy "5d41" Demo.our_statement
           (PDict (<["Statement" := PList [Demo.older_statement; Demo.our_statement]]>
                     Demo.policy))).
  vm_compute. reflexivity.
Defined.

Lemma authorize_appends_once_witness :
  exists d' : gmap string pyval,
    authorize (PDict Demo.policy) "5d41" Demo.our_statement = Ret (PDict d') /\
    d' !! "Statement" =
      Some (PList (if existsb (sid_is "5d41") [Demo.older_statement]
                   then [Demo.older_statement]
                   else ([Demo.older_statement] ++ [Demo.our_statement])%list)).
Proof.
  apply (authorize_appends_once Demo.policy [Demo.older_statement] "5d41"
           Demo.our_statement).
  - vm_compute. reflexivity.
  - constructor; [|constructor]. exists (PStr "older"). reflexivity.
Defined.

Lemma authorize_twice_witness :
  authorize
    (PDict (<["Statement" := PList [Demo.older_statement; Demo.our_statement]]> Demo.policy))
    "5d41" Demo.our_statement =
  Ret (PDict (<["Statement" := PList [Demo.older_statement; Demo.our_statement]]>
                Demo.policy)).
Proof.
  apply (authorize_twice Demo.policy "5d41" Demo.our_statement
           (PDict (<["Statement" := PList [Demo.older_statement; Demo.our_statement]]>
                     Demo.policy)));
    vm_compute; reflexivity.
Defined.

Lemma authorize_needs_sids_witness :
  Demo.policy !! "Statement" = None \/
  exists l : list pyval,
    Demo.policy !! "Statement" = Some (PList l) /\ Forall has_sid l.
Proof.
  apply (authorize_needs_sids Demo.policy "5d41" Demo.our_statement
           (PDict (<["Statement" := PList [Demo.older_statement; Demo.our_statement]]>
                     Demo.policy))).
  vm_compute. reflexivity.
Defined.
